(** * Policy enforcer CLI (main.py): a shallow embedding

    The program loads a policy document and a data document, takes the
    sub-value of the policy at key [schema] and hands both to the external
    [jsonschema.validate] routine.  Everything it does besides calling
    libraries is control flow around exceptions, logging and the exit
    status, so the embedding is a small state-and-exception monad in which
    the functions of main.py are written call by call.

    The libraries (the file system, the YAML and JSON decoders, the
    jsonschema validator) are not part of the repository: they are the
    fields of a record [extern] the development is parameterised by. *)

From Stdlib Require Import ZArith.
From stdpp Require Import base option list strings pretty gmap.

Open Scope string_scope.

(** ** Structured values

    What [yaml.safe_load] and [json.load] return: the tagged union of
    section 9 of the specification.  A mapping is a finite map from string
    keys, as a JSON object is; the only key main.py looks up is the string
    [schema], which a key of another type (YAML allows them) never equals.
    No arithmetic is ever done on a number by main.py, so a float is
    carried as its binary64 bit pattern. *)

#[warnings="-register-all"]
Inductive value : Type :=
  | VNull
  | VBool (b : bool)
  | VInt (n : Z)
  | VFloat (bits : Z)
  | VStr (s : string)
  | VList (l : list value)
  | VDict (m : gmap string value).

(** ** Exceptions

    The classes main.py names in its [except] clauses, and those the
    interpreter and the libraries raise on the paths it walks.  Each of
    them derives from [Exception]; [mro] lists a class and its ancestors
    up to [Exception]. *)

Inductive exn_class : Type :=
  | Exception
  | OSError
  | FileNotFoundError
  | PermissionError
  | IsADirectoryError
  | ValueError
  | UnicodeDecodeError
  | JSONDecodeError
  | YAMLError
  | TypeError
  | KeyError
  | ValidationError
  | SchemaError
  | RecursionError.

#[global] Instance exn_class_eq_dec : EqDecision exn_class.
Proof. solve_decision. Defined.

Definition mro (c : exn_class) : list exn_class :=
  match c with
  | Exception => [Exception]
  | OSError => [OSError; Exception]
  | FileNotFoundError => [FileNotFoundError; OSError; Exception]
  | PermissionError => [PermissionError; OSError; Exception]
  | IsADirectoryError => [IsADirectoryError; OSError; Exception]
  | ValueError => [ValueError; Exception]
  | UnicodeDecodeError => [UnicodeDecodeError; ValueError; Exception]
  | JSONDecodeError => [JSONDecodeError; ValueError; Exception]
  | YAMLError => [YAMLError; Exception]
  | TypeError => [TypeError; Exception]
  | KeyError => [KeyError; Exception]
  | ValidationError => [ValidationError; Exception]
  | SchemaError => [SchemaError; Exception]
  | RecursionError => [RecursionError; Exception]
  end.

Definition issubclass (c d : exn_class) : bool := bool_decide (d ∈ mro c).

(** A raised object: an instance of a class above with its [str()]; an
    instance whose [__str__] raises in its turn, with the class and the
    [str()] of what it raises; or the [SystemExit] that [sys.exit] raises.
    [SystemExit] derives from [BaseException] only, so no [except] clause
    of main.py matches it. *)

Inductive exn : Type :=
  | Exc (c : exn_class) (str : string)
  | Unprintable (c : exn_class) (c' : exn_class) (str' : string)
  | SystemExit (code : Z).

Definition isinstance (e : exn) (d : exn_class) : bool :=
  match e with
  | Exc c _ => issubclass c d
  | Unprintable c _ _ => issubclass c d
  | SystemExit _ => false
  end.

(** ** Logging, standard output and the trace of a run *)

Inductive level : Type := DEBUG | INFO | WARNING | ERROR | CRITICAL.

Definition levelno (l : level) : Z :=
  match l with
  | DEBUG => 10
  | INFO => 20
  | WARNING => 30
  | ERROR => 40
  | CRITICAL => 50
  end.

(** What a run does to the outside, in order: files it opens, calls of the
    validator, logging calls (with whether the root logger's level let the
    record through to the log stream) and lines printed. *)

Inductive event : Type :=
  | EOpen (path : string)
  | EValidate (instance schema : value)
  | ELog (lvl : level) (msg : string) (emitted : bool)
  | EPrint (line : string).

Record state : Type := mkState {
  logger_level : level;
  trace : list event
}.

Inductive result (A : Type) : Type :=
  | Ret (a : A)
  | Raise (e : exn).

Arguments Ret {A} a.
Arguments Raise {A} e.

(** ** The monad: state passing with exceptions *)

Definition M (A : Type) : Type := state → result A * state.

#[global] Instance M_ret : MRet M := λ A a st, (Ret a, st).

#[global] Instance M_bind : MBind M := λ A B f m st,
  match m st with
  | (Ret a, st') => f a st'
  | (Raise e, st') => (Raise e, st')
  end.

#[global] Instance M_throw : MThrow exn M := λ A e st, (Raise e, st).

(** [try: body except c1 as e: h1 except c2 as e: h2 ...]: the first
    clause whose class the raised object is an instance of handles it; the
    handler runs outside the [try], so what it raises propagates. *)

Fixpoint find_handler {A : Type} (e : exn)
    (handlers : list (exn_class * (exn → M A))) : option (M A) :=
  match handlers with
  | [] => None
  | (c, h) :: rest => if isinstance e c then Some (h e) else find_handler e rest
  end.

Definition try_except {A : Type} (body : M A)
    (handlers : list (exn_class * (exn → M A))) : M A := λ st,
  match body st with
  | (Ret a, st') => (Ret a, st')
  | (Raise e, st') =>
      match find_handler e handlers with
      | Some h => h st'
      | None => (Raise e, st')
      end
  end.

Definition emit (ev : event) : M unit := λ st,
  (Ret tt, mkState (logger_level st) (trace st ++ [ev])).

(** [logging.getLogger().setLevel(l)] *)
Definition setLevel (l : level) : M unit := λ st,
  (Ret tt, mkState l (trace st)).

(** Whether a record of level [lvl] gets through a logger of level [l]. *)
Definition enabled (l : level) (lvl : level) : bool :=
  bool_decide (levelno l ≤ levelno lvl)%Z.

(** [logging.error(msg)] and its siblings: the record reaches the log
    stream when its level is at least the root logger's. *)
Definition log (lvl : level) (msg : string) : M unit := λ st,
  emit (ELog lvl msg (enabled (logger_level st) lvl)) st.

Definition print (line : string) : M unit := emit (EPrint line).

(** [sys.exit(code)] *)
Definition sys_exit {A : Type} (code : Z) : M A := mthrow (SystemExit code).

(** [str(e)], which the [{e}] of an f-string evaluates: the text, or the
    exception that [__str__] raises. *)
Definition py_str (e : exn) : M string :=
  match e with
  | Exc _ s => mret s
  | Unprintable _ c' s' => mthrow (Exc c' s')
  | SystemExit code => mret (pretty code)
  end.

(** ** The libraries

    A library call returns or raises an instance of an [Exception]
    class.  (Asynchronous interrupts are outside the model.)  The
    exceptions of [open] and of the decoders carry their message as a
    string.  Those of jsonschema compute [str(e)] when asked, by
    pretty-printing the schema and the instance, and that computation can
    raise ([RecursionError] on a deeply nested instance): the field
    [validation_str_raises] says when it does. *)

Inductive outcome (A : Type) : Type :=
  | Returns (a : A)
  | Raises (c : exn_class) (str : string).

Arguments Returns {A} a.
Arguments Raises {A} c str.

Definition lift {A : Type} (o : outcome A) : M A :=
  match o with
  | Returns a => mret a
  | Raises c s => mthrow (Exc c s)
  end.

Record extern : Type := mkExtern {
  (** [open(path, "r")]: the stream, here the file's content *)
  open_file : string → outcome string;
  (** [yaml.safe_load(f)], reading the stream included *)
  yaml_safe_load : string → outcome value;
  (** [json.load(f)], reading the stream included *)
  json_load : string → outcome value;
  (** [jsonschema.validate(instance=, schema=)]; in [Raises c msg], [msg]
      is [str(e)] when it can be computed *)
  jsonschema_validate : value → value → outcome unit;
  (** when [__str__] of the exception raised on these arguments raises in
      its turn: the class and the [str()] of what it raises *)
  validation_str_raises : value → value → option (exn_class * string);
  (** the interpreter's text for [TypeError] on [x in v] and on [v[k]],
      which varies between versions of Python *)
  not_iterable_str : value → string;
  not_subscriptable_str : value → string
}.

(** ** Operations of the interpreter on values *)

(** [s.endswith(suffix)] *)
Definition endswith (s suffix : string) : bool :=
  let n := String.length s in
  let k := String.length suffix in
  bool_decide (k ≤ n)%nat && String.eqb (String.substring (n - k)%nat k s) suffix.

(** [needle in s] for two strings: the substring test *)
Fixpoint str_contains (needle s : string) : bool :=
  String.prefix needle s ||
  match s with
  | EmptyString => false
  | String _ s' => str_contains needle s'
  end.

(** The last character of a string, if it has one. *)
Fixpoint last_char (s : string) : option Ascii.ascii :=
  match s with
  | EmptyString => None
  | String c EmptyString => Some c
  | String _ s' => last_char s'
  end.

Definition is_str (k : string) (v : value) : bool :=
  match v with
  | VStr s => String.eqb s k
  | _ => false
  end.

Section WithLibraries.

Variable E : extern.

(** [k in v] for a string [k]: key membership on a mapping, element
    membership on a sequence, the substring test on a string, and a
    [TypeError] on a value that is not a container. *)
Definition py_contains (k : string) (v : value) : M bool :=
  match v with
  | VDict m => mret (bool_decide (is_Some (m !! k)))
  | VList l => mret (existsb (is_str k) l)
  | VStr s => mret (str_contains k s)
  | VNull | VBool _ | VInt _ | VFloat _ =>
      mthrow (Exc TypeError (not_iterable_str E v))
  end.

(** [v[k]] for a string [k] *)
Definition py_getitem (v : value) (k : string) : M value :=
  match v with
  | VDict m =>
      match m !! k with
      | Some x => mret x
      | None => mthrow (Exc KeyError ("'" ++ k ++ "'"))
      end
  | _ => mthrow (Exc TypeError (not_subscriptable_str E v))
  end.

Definition py_open (path : string) : M string :=
  emit (EOpen path);; lift (open_file E path).

(** ** main.py *)

(** The suite of the [try:] statement of [load_data]: the [with] block
    and the [return]. *)
Definition load_data_suite (file_path : string) : M value :=
  f ← py_open file_path;
  if endswith file_path ".yaml" || endswith file_path ".yml" then
    lift (yaml_safe_load E f)
  else if endswith file_path ".json" then
    lift (json_load E f)
  else
    mthrow (Exc ValueError "Unsupported file format. Use YAML or JSON.").

Definition load_data (file_path : string) : M value :=
  try_except
    (load_data_suite file_path)
    [ (FileNotFoundError, λ e,
        log ERROR ("File not found: " ++ file_path);; mthrow e);
      (YAMLError, λ e,
        text ← py_str e;
        log ERROR ("Error parsing YAML file: " ++ text);; mthrow e);
      (JSONDecodeError, λ e,
        text ← py_str e;
        log ERROR ("Error parsing JSON file: " ++ text);; mthrow e);
      (Exception, λ e,
        text ← py_str e;
        log ERROR ("Error loading data: " ++ text);; mthrow e) ].

(** The call [validate(instance=data, schema=schema)]: what it raises is
    an object of the library, whose [__str__] may fail. *)
Definition validate (data schema : value) : M unit :=
  emit (EValidate data schema);;
  match jsonschema_validate E data schema with
  | Returns u => mret u
  | Raises c msg =>
      match validation_str_raises E data schema with
      | None => mthrow (Exc c msg)
      | Some (c', msg') => mthrow (Unprintable c c' msg')
      end
  end.

(** In each handler the f-string is evaluated first, inside the handler
    and outside the [try]: when [str(e)] raises, nothing is logged and
    that exception leaves [validate_data]. *)
Definition validate_data (data schema : value) : M bool :=
  try_except
    (validate data schema;; mret true)
    [ (ValidationError, λ e,
        text ← py_str e;
        log ERROR ("Validation error: " ++ text);; mret false);
      (Exception, λ e,
        text ← py_str e;
        log ERROR ("Unexpected error during validation: " ++ text);;
        mret false) ].

(** The namespace [parser.parse_args()] returns; [--log_level] is
    restricted to its five [choices]. *)
Record args : Type := mkArgs {
  policy_file : string;
  data_file : string;
  log_level : level
}.

(** The suite of the [try:] statement of [main]. *)
Definition main_body (a : args) : M unit :=
  policy_data ← load_data (policy_file a);
  data_to_validate ← load_data (data_file a);
  present ← py_contains "schema" policy_data;
  (if negb present return M unit then
     log ERROR "Policy file must contain a 'schema' key.";; sys_exit 1
   else mret tt);;
  schema ← py_getitem policy_data "schema";
  is_valid ← validate_data data_to_validate schema;
  if (is_valid : bool) then
    log INFO "Data is valid according to the policy.";;
    print "Data is valid according to the policy."
  else
    log WARNING "Data does not conform to the defined policy.";;
    print "Data does not conform to the defined policy.".

Definition main (a : args) : M unit :=
  setLevel (log_level a);;
  try_except
    (main_body a)
    [ (Exception, λ e,
        text ← py_str e;
        log CRITICAL ("An unexpected error occurred: " ++ text);;
        sys_exit 1) ].

(** ** A run of the program

    [logging.basicConfig(level=logging.INFO)] has run at import time.  The
    exit status is 0 when [main] returns, the code of a [SystemExit], and
    1 when any other exception reaches the interpreter. *)

Definition initial_state : state := mkState INFO [].

Definition exit_status {A : Type} (r : result A) : Z :=
  match r with
  | Ret _ => 0
  | Raise (SystemExit code) => code
  | Raise (Exc _ _) => 1
  | Raise (Unprintable _ _ _) => 1
  end.

Definition run (a : args) : Z * list event :=
  let '(r, st) := main a initial_state in (exit_status r, trace st).

(** The file at [path] loads to the value [v]. *)
Definition loads (path : string) (v : value) : Prop :=
  (load_data path initial_state).1 = Ret v.

(** Loading the file at [path] raises an instance of [c] whose [str()]
    is [msg]. *)
Definition load_raises (path : string) (c : exn_class) (msg : string) : Prop :=
  (load_data path initial_state).1 = Raise (Exc c msg).

End WithLibraries.

(** ** Reading a trace *)

(** The lines written to standard output. *)
Definition stdout (tr : list event) : list string :=
  omap (λ ev, match ev with EPrint line => Some line | _ => None end) tr.

(** The records that reached the log stream. *)
Definition log_stream (tr : list event) : list (level * string) :=
  omap (λ ev, match ev with
              | ELog lvl msg true => Some (lvl, msg)
              | _ => None
              end) tr.

(** The calls of the validator. *)
Definition validations (tr : list event) : list (value * value) :=
  omap (λ ev, match ev with EValidate d s => Some (d, s) | _ => None end) tr.

(** [st] after the events [evs]. *)
Definition extend (st : state) (evs : list event) : state :=
  mkState (logger_level st) (trace st ++ evs).

(** ** Runs compared

    Two traces are alike when they differ only in which file was opened
    and in which log records got through: [erase] forgets both.  Two
    computations are [related] when from alike states they give the same
    result and alike states.  A computation related to itself cannot tell
    the logger's level. *)

Definition erase (ev : event) : event :=
  match ev with
  | EOpen _ => EOpen ""
  | ELog lvl msg _ => ELog lvl msg false
  | EValidate d s => EValidate d s
  | EPrint line => EPrint line
  end.

Definition alike (st1 st2 : state) : Prop :=
  erase <$> trace st1 = erase <$> trace st2.

Definition related {A : Type} (m1 m2 : M A) : Prop :=
  ∀ st1 st2, alike st1 st2 →
    (m1 st1).1 = (m2 st2).1 ∧ alike (m1 st1).2 (m2 st2).2.

(** Handlers of two [try] statements that match clause by clause. *)
Definition handlers_related {A : Type}
    (hs1 hs2 : list (exn_class * (exn → M A))) : Prop :=
  Forall2 (λ h1 h2, h1.1 = h2.1 ∧ ∀ e, related (h1.2 e) (h2.2 e)) hs1 hs2.

(** The text [load_data] logs for an exception of class [c] with
    [str()] [msg], read off its [except] clauses. *)
Definition load_error_text (path : string) (c : exn_class) (msg : string) : string :=
  if issubclass c FileNotFoundError then "File not found: " ++ path
  else if issubclass c YAMLError then "Error parsing YAML file: " ++ msg
  else if issubclass c JSONDecodeError then "Error parsing JSON file: " ++ msg
  else "Error loading data: " ++ msg.

(** Whether the interpreter can evaluate [x in v] at all: strings,
    sequences and mappings are containers; [None], booleans and numbers
    are not. *)
Definition supports_membership (v : value) : bool :=
  match v with
  | VStr _ | VList _ | VDict _ => true
  | VNull | VBool _ | VInt _ | VFloat _ => false
  end.

(** The run ended in the [except Exception] clause of [main]: its last
    act was the CRITICAL record. *)
Definition via_top_level_handler (tr : list event) : Prop :=
  ∃ msg, last tr = Some (ELog CRITICAL ("An unexpected error occurred: " ++ msg) true).

(** The run ended in the exit of [main] for a policy without the key. *)
Definition via_schema_exit (tr : list event) : Prop :=
  ∃ b, last tr = Some (ELog ERROR "Policy file must contain a 'schema' key." b).

(** The path does not reference an existing file: [open] raises
    [FileNotFoundError]. *)
Definition missing (E : extern) (path : string) : Prop :=
  ∃ msg, open_file E path = Raises FileNotFoundError msg.

(** [load_data] logged that the file at [path] was not found. *)
Definition file_not_found_logged (path : string) (tr : list event) : Prop :=
  ∃ b, ELog ERROR ("File not found: " ++ path) b ∈ tr.

(** What [--log_level] must not change: the exit status, the standard
    output and the calls of the validator. *)
Definition verdict (r : Z * list event) : Z * list string * list (value * value) :=
  (r.1, stdout r.2, validations r.2).

(** ** A concrete instance of the libraries

    A file system of five files, decoders that know the documents of the
    scenarios of the specification, and a validator that implements
    [required] and the boolean schemas. *)

Module Demo.

Definition dq : string := String (Ascii.ascii_of_nat 34) EmptyString.

Definition schema_A : value :=
  VDict {[ "type" := VStr "object";
           "required" := VList [VStr "name"];
           "properties" := VDict {[ "name" := VDict {[ "type" := VStr "string" ]} ]} ]}.

Definition policy_A : value := VDict {[ "schema" := schema_A ]}.
Definition policy_C : value := VDict {[ "notschema" := VDict ∅ ]}.
Definition alice : value := VDict {[ "name" := VStr "alice" ]}.
Definition age5 : value := VDict {[ "age" := VInt 5 ]}.

Definition alice_json : string :=
  "{" ++ dq ++ "name" ++ dq ++ ": " ++ dq ++ "alice" ++ dq ++ "}".

Definition files : list (string * string) :=
  [ ("policy.yaml", "schema: {type: object, required: [name], properties: {name: {type: string}}}");
    ("noschema.yaml", "notschema: {}");
    ("empty.yaml", "");
    ("word.yaml", "hello");
    ("alice.yaml", "name: alice");
    ("alice.json", alice_json);
    ("age.yaml", "age: 5");
    ("broken.json", "{");
    ("notes.txt", "name: alice") ].

Definition yaml_documents : list (string * value) :=
  [ ("schema: {type: object, required: [name], properties: {name: {type: string}}}", policy_A);
    ("notschema: {}", policy_C);
    ("", VNull);
    ("hello", VStr "hello");
    ("name: alice", alice);
    ("age: 5", age5) ].

Definition json_documents : list (string * value) :=
  [ (alice_json, alice) ].

Fixpoint assoc {A : Type} (k : string) (l : list (string * A)) : option A :=
  match l with
  | [] => None
  | (k', x) :: rest => if String.eqb k k' then Some x else assoc k rest
  end.

Definition open_file (path : string) : outcome string :=
  match assoc path files with
  | Some content => Returns content
  | None =>
      Raises FileNotFoundError
        ("[Errno 2] No such file or directory: '" ++ path ++ "'")
  end.

Definition yaml_safe_load (content : string) : outcome value :=
  match assoc content yaml_documents with
  | Some v => Returns v
  | None => Raises YAMLError "could not parse the document"
  end.

Definition json_load (content : string) : outcome value :=
  match assoc content json_documents with
  | Some v => Returns v
  | None => Raises JSONDecodeError "Expecting property name enclosed in double quotes"
  end.

Definition has_key (d : gmap string value) (k : value) : bool :=
  match k with
  | VStr name => bool_decide (is_Some (d !! name))
  | _ => true
  end.

Definition jsonschema_validate (inst schema : value) : outcome unit :=
  match schema with
  | VBool true => Returns tt
  | VBool false => Raises ValidationError "False schema does not allow the instance"
  | VDict s =>
      match s !! "required", inst with
      | Some (VList names), VDict d =>
          if forallb (has_key d) names then Returns tt
          else Raises ValidationError "a required property is missing"
      | Some (VList _), _ => Returns tt
      | Some _, _ => Raises SchemaError "required is not of type array"
      | None, _ => Returns tt
      end
  | _ => Raises SchemaError "the schema is not of type object or boolean"
  end.

Definition type_name (v : value) : string :=
  match v with
  | VNull => "NoneType"
  | VBool _ => "bool"
  | VInt _ => "int"
  | VFloat _ => "float"
  | VStr _ => "str"
  | VList _ => "list"
  | VDict _ => "dict"
  end.

Definition E : extern :=
  mkExtern open_file yaml_safe_load json_load jsonschema_validate
    (λ _ _, None)
    (λ v, "argument of type '" ++ type_name v ++ "' is not iterable")
    (λ v, "'" ++ type_name v ++ "' object is not subscriptable").

(** Scenarios A to D of section 8 of the specification. *)
Definition scenario_A : args := mkArgs "policy.yaml" "alice.yaml" INFO.
Definition scenario_B : args := mkArgs "policy.yaml" "age.yaml" INFO.
Definition scenario_C : args := mkArgs "noschema.yaml" "age.yaml" INFO.
Definition scenario_D : args := mkArgs "policy.yaml" "notes.txt" INFO.

End Demo.


(** ** The paths of a run

    Further readings of a trace and of a policy value, and the ways a
    run of [main] can go once the arguments are parsed, each with the
    trace it leaves. *)

(** The files opened, in order. *)
Definition opens (tr : list event) : list string :=
  omap (λ ev, match ev with EOpen path => Some path | _ => None end) tr.

Definition is_mapping (v : value) : bool :=
  match v with
  | VDict _ => true
  | _ => false
  end.

(** What ["schema" in policy] evaluates to; [py_contains] does not look
    at the state. *)
Definition schema_in (E : extern) (policy : value) : result bool :=
  (py_contains E "schema" policy initial_state).1.

Inductive run_shape (E : extern) (a : args) : Z → list event → Prop :=
  | policy_fails (c : exn_class) (msg : string) :
      load_raises E (policy_file a) c msg →
      run_shape E a 1
        [EOpen (policy_file a);
         ELog ERROR (load_error_text (policy_file a) c msg)
           (enabled (log_level a) ERROR);
         ELog CRITICAL ("An unexpected error occurred: " ++ msg) true]
  | data_fails (policy : value) (c : exn_class) (msg : string) :
      loads E (policy_file a) policy →
      load_raises E (data_file a) c msg →
      run_shape E a 1
        [EOpen (policy_file a); EOpen (data_file a);
         ELog ERROR (load_error_text (data_file a) c msg)
           (enabled (log_level a) ERROR);
         ELog CRITICAL ("An unexpected error occurred: " ++ msg) true]
  | membership_fails (policy data : value) :
      loads E (policy_file a) policy →
      loads E (data_file a) data →
      supports_membership policy = false →
      run_shape E a 1
        [EOpen (policy_file a); EOpen (data_file a);
         ELog CRITICAL
           ("An unexpected error occurred: " ++ not_iterable_str E policy) true]
  | key_absent (policy data : value) :
      loads E (policy_file a) policy →
      loads E (data_file a) data →
      schema_in E policy = Ret false →
      run_shape E a 1
        [EOpen (policy_file a); EOpen (data_file a);
         ELog ERROR "Policy file must contain a 'schema' key."
           (enabled (log_level a) ERROR)]
  | lookup_fails (policy data : value) :
      loads E (policy_file a) policy →
      loads E (data_file a) data →
      schema_in E policy = Ret true →
      is_mapping policy = false →
      run_shape E a 1
        [EOpen (policy_file a); EOpen (data_file a);
         ELog CRITICAL
           ("An unexpected error occurred: " ++ not_subscriptable_str E policy) true]
  | validated_conforms (m : gmap string value) (data schema : value) :
      loads E (policy_file a) (VDict m) →
      loads E (data_file a) data →
      m !! "schema" = Some schema →
      jsonschema_validate E data schema = Returns tt →
      run_shape E a 0
        [EOpen (policy_file a); EOpen (data_file a); EValidate data schema;
         ELog INFO "Data is valid according to the policy."
           (enabled (log_level a) INFO);
         EPrint "Data is valid according to the policy."]
  | validated_fails (m : gmap string value) (data schema : value)
      (c : exn_class) (msg : string) :
      loads E (policy_file a) (VDict m) →
      loads E (data_file a) data →
      m !! "schema" = Some schema →
      jsonschema_validate E data schema = Raises c msg →
      validation_str_raises E data schema = None →
      run_shape E a 0
        [EOpen (policy_file a); EOpen (data_file a); EValidate data schema;
         ELog ERROR
           ((if issubclass c ValidationError then "Validation error: "
             else "Unexpected error during validation: ") ++ msg)
           (enabled (log_level a) ERROR);
         ELog WARNING "Data does not conform to the defined policy."
           (enabled (log_level a) WARNING);
         EPrint "Data does not conform to the defined policy."]
  | formatting_fails (m : gmap string value) (data schema : value)
      (c : exn_class) (msg : string) (c' : exn_class) (msg' : string) :
      loads E (policy_file a) (VDict m) →
      loads E (data_file a) data →
      m !! "schema" = Some schema →
      jsonschema_validate E data schema = Raises c msg →
      validation_str_raises E data schema = Some (c', msg') →
      run_shape E a 1
        [EOpen (policy_file a); EOpen (data_file a); EValidate data schema;
         ELog CRITICAL ("An unexpected error occurred: " ++ msg') true].

(** ** A second instance of the libraries

    Policies that are a sequence or a string, documents that do not
    parse, a file that may not be read, a schema that is not one. *)

Module Demo2.

Definition policy_extra : value :=
  VDict {[ "schema" := Demo.schema_A; "version" := VInt 2 ]}.
Definition policy_bad_schema : value := VDict {[ "schema" := VInt 5 ]}.

Definition files : list (string * string) :=
  [ ("policy.yaml", "schema: A");
    ("policy2.yaml", "schema: A, version: 2");
    ("badschema.yaml", "schema: 5");
    ("noschema.yaml", "notschema: {}");
    ("list.yaml", "- a");
    ("keys.yaml", "- schema");
    ("title.yaml", "my schema");
    ("alice.yaml", "name: alice");
    ("copy.yml", "name: alice");
    ("age.yaml", "age: 5");
    ("broken.yaml", "a: [");
    ("broken.json", "{") ].

Definition yaml_documents : list (string * value) :=
  [ ("schema: A", Demo.policy_A);
    ("schema: A, version: 2", policy_extra);
    ("schema: 5", policy_bad_schema);
    ("notschema: {}", Demo.policy_C);
    ("- a", VList [VStr "a"]);
    ("- schema", VList [VStr "schema"]);
    ("my schema", VStr "my schema");
    ("name: alice", Demo.alice);
    ("age: 5", Demo.age5) ].

Definition open_file (path : string) : outcome string :=
  match Demo.assoc path files with
  | Some content => Returns content
  | None =>
      if String.eqb path "locked.yaml" then
        Raises PermissionError "[Errno 13] Permission denied: 'locked.yaml'"
      else
        Raises FileNotFoundError
          ("[Errno 2] No such file or directory: '" ++ path ++ "'")
  end.

Definition yaml_safe_load (content : string) : outcome value :=
  match Demo.assoc content yaml_documents with
  | Some v => Returns v
  | None => Raises YAMLError "while parsing a flow sequence: expected ',' or ']'"
  end.

Definition E : extern :=
  mkExtern open_file yaml_safe_load Demo.json_load Demo.jsonschema_validate
    (λ _ _, None)
    (not_iterable_str Demo.E) (not_subscriptable_str Demo.E).

Definition run_valid : args := mkArgs "policy.yaml" "alice.yaml" INFO.
Definition run_bad_schema : args := mkArgs "badschema.yaml" "alice.yaml" INFO.

End Demo2.

(** ** A third instance of the libraries

    A data document nested deeper than the pretty-printer of the
    validator's exceptions can follow: [validate] raises a
    [ValidationError] on it, and [str()] of that exception raises a
    [RecursionError]. *)

Module Demo3.

(** [[[...]]], [n] lists deep around an empty one. *)
Fixpoint nest (n : nat) : value :=
  match n with
  | O => VList []
  | S n' => VList [nest n']
  end.

Fixpoint deeper_than (n : nat) (v : value) : bool :=
  match v with
  | VList (x :: _) =>
      match n with
      | O => true
      | S n' => deeper_than n' x
      end
  | _ => false
  end.

Definition string_schema : value := VDict {[ "type" := VStr "string" ]}.
Definition policy : value := VDict {[ "schema" := string_schema ]}.

Definition open_file (path : string) : outcome string :=
  if String.eqb path "policy.json" then Returns "{schema: {type: string}}"
  else if String.eqb path "deep600.json" then Returns "[ 600 deep ]"
  else if String.eqb path "deep5.json" then Returns "[ 5 deep ]"
  else
    Raises FileNotFoundError
      ("[Errno 2] No such file or directory: '" ++ path ++ "'").

Definition json_load (content : string) : outcome value :=
  if String.eqb content "{schema: {type: string}}" then Returns policy
  else if String.eqb content "[ 600 deep ]" then Returns (nest 600)
  else if String.eqb content "[ 5 deep ]" then Returns (nest 5)
  else Raises JSONDecodeError "Expecting value".

(** Only [{type: string}] is understood. *)
Definition jsonschema_validate (inst schema : value) : outcome unit :=
  match inst with
  | VStr _ => Returns tt
  | _ => Raises ValidationError "the instance is not of type 'string'"
  end.

Definition validation_str_raises (inst schema : value)
    : option (exn_class * string) :=
  if deeper_than 300 inst then
    Some (RecursionError, "maximum recursion depth exceeded")
  else None.

Definition E : extern :=
  mkExtern open_file Demo.yaml_safe_load json_load jsonschema_validate
    validation_str_raises
    (not_iterable_str Demo.E) (not_subscriptable_str Demo.E).

Definition run_deep : args := mkArgs "policy.json" "deep600.json" INFO.

End Demo3.

(** * Properties *)

Ltac unfold_M :=
  unfold try_except, py_open, validate, print, sys_exit, log, emit, setLevel,
    lift, mbind, M_bind, mthrow, M_throw, mret, M_ret, extend, enabled in *.

Section Properties.

Variable E : extern.

Lemma issubclass_Exception (c : exn_class) : issubclass c Exception = true.
Proof. by destruct c. Qed.

(** *** The loader *)

Lemma extend_extend (st : state) (l1 l2 : list event) :
  extend (extend st l1) l2 = extend st (l1 ++ l2).
Proof. unfold extend; simpl. by rewrite <- app_assoc. Qed.

(** What [load_data] does once its [try] suite has raised: one record at
    level ERROR, and the same exception again. *)
Lemma load_data_raise (p : string) (c : exn_class) (msg : string) (st st' : state) :
  load_data_suite E p st = (Raise (Exc c msg), st') →
  load_data E p st =
    (Raise (Exc c msg),
     extend st' [ELog ERROR (load_error_text p c msg) (enabled (logger_level st') ERROR)]).
Proof.
  intros Hsuite. unfold load_data, try_except. rewrite Hsuite.
  destruct c; reflexivity.
Qed.

Lemma load_data_return (p : string) (v : value) (st st' : state) :
  load_data_suite E p st = (Ret v, st') → load_data E p st = (Ret v, st').
Proof. intros Hsuite. unfold load_data, try_except. by rewrite Hsuite. Qed.

Lemma load_data_open_fails (p : string) (c : exn_class) (msg : string) (st : state) :
  open_file E p = Raises c msg →
  load_data E p st =
    (Raise (Exc c msg),
     extend st [EOpen p; ELog ERROR (load_error_text p c msg) (enabled (logger_level st) ERROR)]).
Proof.
  intros Hopen.
  rewrite (load_data_raise p c msg st (extend st [EOpen p])).
  - by rewrite extend_extend.
  - unfold load_data_suite. unfold_M. by rewrite Hopen.
Qed.

(** The suite opens the file and then returns or raises, whatever the
    state it starts from. *)
Lemma load_data_suite_cases (p : string) :
  (∃ v, ∀ st, load_data_suite E p st = (Ret v, extend st [EOpen p])) ∨
  (∃ c msg, ∀ st, load_data_suite E p st = (Raise (Exc c msg), extend st [EOpen p])).
Proof.
  unfold load_data_suite. unfold_M.
  destruct (open_file E p) as [f|c msg]; [|right; eauto].
  destruct (endswith p ".yaml" || endswith p ".yml").
  { destruct (yaml_safe_load E f) as [v|c msg]; [left|right]; eauto. }
  destruct (endswith p ".json").
  { destruct (json_load E f) as [v|c msg]; [left|right]; eauto. }
  right; eauto.
Qed.

Lemma load_data_cases (p : string) :
  (∃ v, ∀ st, load_data E p st = (Ret v, extend st [EOpen p])) ∨
  (∃ c msg, ∀ st,
     load_data E p st =
       (Raise (Exc c msg),
        extend st [EOpen p;
                   ELog ERROR (load_error_text p c msg) (enabled (logger_level st) ERROR)])).
Proof.
  destruct (load_data_suite_cases p) as [[v Hv]|(c & msg & Hc)].
  - left. exists v. intros st. by apply load_data_return.
  - right. exists c, msg. intros st.
    rewrite (load_data_raise p c msg st _ (Hc st)). by rewrite extend_extend.
Qed.

Lemma loads_spec (p : string) (v : value) (st : state) :
  loads E p v → load_data E p st = (Ret v, extend st [EOpen p]).
Proof.
  unfold loads. intros Hv.
  destruct (load_data_cases p) as [[v' Hv']|(c & msg & Hc)].
  - rewrite Hv' in Hv. simpl in Hv. injection Hv as ->. apply Hv'.
  - rewrite Hc in Hv. discriminate.
Qed.

Lemma load_raises_spec (p : string) (c : exn_class) (msg : string) (st : state) :
  load_raises E p c msg →
  load_data E p st =
    (Raise (Exc c msg),
     extend st [EOpen p;
                ELog ERROR (load_error_text p c msg) (enabled (logger_level st) ERROR)]).
Proof.
  unfold load_raises. intros Hc.
  destruct (load_data_cases p) as [[v' Hv']|(c' & msg' & Hc')].
  - rewrite Hv' in Hc. discriminate.
  - rewrite Hc' in Hc. simpl in Hc. injection Hc as -> ->. apply Hc'.
Qed.

Lemma loads_or_raises (p : string) :
  (∃ v, loads E p v) ∨ (∃ c msg, load_raises E p c msg).
Proof.
  unfold loads, load_raises.
  destruct (load_data_cases p) as [[v Hv]|(c & msg & Hc)].
  - left. exists v. by rewrite Hv.
  - right. exists c, msg. by rewrite Hc.
Qed.

(** *** The validator *)

Lemma validate_data_spec (data schema : value) (st : state) :
  validate_data E data schema st =
    match jsonschema_validate E data schema with
    | Returns _ => (Ret true, extend st [EValidate data schema])
    | Raises c msg =>
        match validation_str_raises E data schema with
        | None =>
            (Ret false,
             extend st
               [EValidate data schema;
                ELog ERROR
                  ((if issubclass c ValidationError then "Validation error: "
                    else "Unexpected error during validation: ") ++ msg)
                  (enabled (logger_level st) ERROR)])
        | Some (c', msg') =>
            (Raise (Exc c' msg'), extend st [EValidate data schema])
        end
    end.
Proof.
  unfold validate_data. unfold_M.
  destruct (jsonschema_validate E data schema) as [u|c msg]; [done|].
  destruct (validation_str_raises E data schema) as [[c' msg']|].
  - destruct c; reflexivity.
  - destruct c; simpl; by rewrite <- app_assoc.
Qed.

(** *** The top-level handler *)

Lemma main_unfold (a : args) (st : state) :
  main E a st =
    match main_body E a (mkState (log_level a) (trace st)) with
    | (Ret u, st') => (Ret u, st')
    | (Raise (Exc c msg), st') =>
        (Raise (SystemExit 1),
         extend st' [ELog CRITICAL ("An unexpected error occurred: " ++ msg) true])
    | (Raise (Unprintable c c' msg'), st') => (Raise (Exc c' msg'), st')
    | (Raise (SystemExit code), st') => (Raise (SystemExit code), st')
    end.
Proof.
  unfold main. unfold_M. simpl.
  destruct (main_body E a _) as [[u|[c msg|c c' msg'|code]] st']; simpl; try done.
  - rewrite issubclass_Exception. by destruct (logger_level st').
  - by rewrite issubclass_Exception.
Qed.

(** *** Runs, case by case *)

Ltac enter_main :=
  unfold run; rewrite main_unfold; cbv [main_body mbind M_bind initial_state trace].

Lemma run_policy_raises (a : args) (c : exn_class) (msg : string) :
  load_raises E (policy_file a) c msg →
  run E a =
    (1%Z,
     [EOpen (policy_file a);
      ELog ERROR (load_error_text (policy_file a) c msg) (enabled (log_level a) ERROR);
      ELog CRITICAL ("An unexpected error occurred: " ++ msg) true]).
Proof.
  intros Hp. enter_main.
  rewrite (load_raises_spec _ _ _ _ Hp). reflexivity.
Qed.

Lemma run_data_raises (a : args) (policy : value) (c : exn_class) (msg : string) :
  loads E (policy_file a) policy →
  load_raises E (data_file a) c msg →
  run E a =
    (1%Z,
     [EOpen (policy_file a); EOpen (data_file a);
      ELog ERROR (load_error_text (data_file a) c msg) (enabled (log_level a) ERROR);
      ELog CRITICAL ("An unexpected error occurred: " ++ msg) true]).
Proof.
  intros Hp Hd. enter_main.
  rewrite (loads_spec _ _ _ Hp). cbv beta iota.
  rewrite (load_raises_spec _ _ _ _ Hd). reflexivity.
Qed.

(** Both files load and the policy is a mapping with the key: the
    validator is called once; one sentence is printed, unless the
    exception of the validator cannot be formatted. *)
Lemma run_schema_present (a : args) (m : gmap string value) (schema data : value) :
  loads E (policy_file a) (VDict m) →
  loads E (data_file a) data →
  m !! "schema" = Some schema →
  run E a =
    match jsonschema_validate E data schema with
    | Returns _ =>
        (0%Z,
         [EOpen (policy_file a); EOpen (data_file a); EValidate data schema;
          ELog INFO "Data is valid according to the policy."
            (enabled (log_level a) INFO);
          EPrint "Data is valid according to the policy."])
    | Raises c msg =>
        match validation_str_raises E data schema with
        | None =>
            (0%Z,
             [EOpen (policy_file a); EOpen (data_file a); EValidate data schema;
              ELog ERROR
                ((if issubclass c ValidationError then "Validation error: "
                  else "Unexpected error during validation: ") ++ msg)
                (enabled (log_level a) ERROR);
              ELog WARNING "Data does not conform to the defined policy."
                (enabled (log_level a) WARNING);
              EPrint "Data does not conform to the defined policy."])
        | Some (c', msg') =>
            (1%Z,
             [EOpen (policy_file a); EOpen (data_file a); EValidate data schema;
              ELog CRITICAL ("An unexpected error occurred: " ++ msg') true])
        end
    end.
Proof.
  intros Hp Hd Hs. enter_main.
  rewrite (loads_spec _ _ _ Hp). cbv beta iota.
  rewrite (loads_spec _ _ _ Hd). cbv beta iota.
  cbv [py_contains py_getitem mret M_ret]. rewrite Hs.
  rewrite bool_decide_eq_true_2 by eauto. cbn [negb]. cbv beta iota.
  rewrite validate_data_spec.
  destruct (jsonschema_validate E data schema) as [u|c msg]; [reflexivity|].
  destruct (validation_str_raises E data schema) as [[c' msg']|]; reflexivity.
Qed.

(** Both files load and the policy is a mapping without the key. *)
Lemma run_schema_absent (a : args) (m : gmap string value) (data : value) :
  loads E (policy_file a) (VDict m) →
  loads E (data_file a) data →
  m !! "schema" = None →
  run E a =
    (1%Z,
     [EOpen (policy_file a); EOpen (data_file a);
      ELog ERROR "Policy file must contain a 'schema' key."
        (enabled (log_level a) ERROR)]).
Proof.
  intros Hp Hd Hs. enter_main.
  rewrite (loads_spec _ _ _ Hp). cbv beta iota.
  rewrite (loads_spec _ _ _ Hd). cbv beta iota.
  cbv [py_contains mret M_ret]. rewrite Hs.
  rewrite bool_decide_eq_false_2 by (intros [? ?]; discriminate).
  reflexivity.
Qed.

(** Both files load and the policy is a value on which the membership
    test raises. *)
Lemma run_policy_not_container (a : args) (policy data : value) :
  loads E (policy_file a) policy →
  loads E (data_file a) data →
  supports_membership policy = false →
  run E a =
    (1%Z,
     [EOpen (policy_file a); EOpen (data_file a);
      ELog CRITICAL
        ("An unexpected error occurred: " ++ not_iterable_str E policy) true]).
Proof.
  intros Hp Hd Hc. enter_main.
  rewrite (loads_spec _ _ _ Hp). cbv beta iota.
  rewrite (loads_spec _ _ _ Hd). cbv beta iota.
  destruct policy; try discriminate; reflexivity.
Qed.

(** *** Claims about [validate_data] and [load_data] *)

(** C1: [validate_data] returns [True] exactly when
    [jsonschema.validate] raises nothing.  When the routine raises a
    [ValidationError] whose [str()] can be computed, it logs
    "Validation error: " followed by that text at level ERROR and returns
    [False]; when [str()] raises in its turn (line 89 evaluates it inside
    the handler), nothing is logged and [validate_data] does not return:
    it raises what [str()] raised. *)
Theorem validate_data_validation_error_cases (data schema : value) (st : state) :
  ((validate_data E data schema st).1 = Ret true ↔
     jsonschema_validate E data schema = Returns tt) ∧
  (∀ msg, jsonschema_validate E data schema = Raises ValidationError msg →
     validation_str_raises E data schema = None →
     validate_data E data schema st =
       (Ret false,
        extend st [EValidate data schema;
                   ELog ERROR ("Validation error: " ++ msg)
                     (enabled (logger_level st) ERROR)])) ∧
  (∀ msg c' msg', jsonschema_validate E data schema = Raises ValidationError msg →
     validation_str_raises E data schema = Some (c', msg') →
     validate_data E data schema st =
       (Raise (Exc c' msg'), extend st [EValidate data schema])).
Proof.
  rewrite validate_data_spec. split; [|split].
  - destruct (jsonschema_validate E data schema) as [[]|c msg]; simpl; [done|].
    destruct (validation_str_raises E data schema) as [[c' msg']|];
      split; discriminate.
  - intros msg -> ->. reflexivity.
  - intros msg c' msg' -> ->. reflexivity.
Qed.

(** C2: [validate_data] raises past its boundary exactly when the routine
    raises an exception, of whatever class, whose [str()] raises in its
    turn: both handlers evaluate [str(e)] (lines 89 and 92) outside the
    [try], and what leaves [validate_data] is the exception of [str()]. *)
Theorem validate_data_raises_iff
    (data schema : value) (st : state) (c' : exn_class) (msg' : string) :
  (validate_data E data schema st).1 = Raise (Exc c' msg') ↔
  (∃ c msg, jsonschema_validate E data schema = Raises c msg) ∧
  validation_str_raises E data schema = Some (c', msg').
Proof.
  rewrite validate_data_spec.
  destruct (jsonschema_validate E data schema) as [u|c msg]; simpl.
  { split; [discriminate|]. by intros [(c & msg & ?) _]. }
  destruct (validation_str_raises E data schema) as [[c'' msg'']|]; simpl.
  - split.
    + intros [= -> ->]. eauto.
    + by intros [_ [= -> ->]].
  - split; [discriminate|]. by intros [_ ?].
Qed.

(** C9: the file is opened before the suffix is looked at: a path that
    does not exist fails with the file-not-found condition, logged as
    "File not found: <path>" and raised again, whatever its suffix. *)
Theorem load_data_missing_file_any_suffix (p msg : string) (st : state) :
  open_file E p = Raises FileNotFoundError msg →
  load_data E p st =
    (Raise (Exc FileNotFoundError msg),
     extend st [EOpen p;
                ELog ERROR ("File not found: " ++ p) (enabled (logger_level st) ERROR)]).
Proof. intros Hopen. by rewrite (load_data_open_fails p _ _ st Hopen). Qed.

(** *** Claims about a run *)

(** C3: with both files loaded and a policy that is a mapping with the
    key [schema], the run does not always print a sentence and exit with
    status 0: when the validator raises an exception whose [str()]
    raises, [validate_data] raises, the top-level handler logs its
    CRITICAL record, nothing is printed and the exit status is 1. *)
Theorem run_exits_1_when_str_raises
    (a : args) (m : gmap string value) (data schema : value)
    (c : exn_class) (msg : string) (c' : exn_class) (msg' : string) :
  loads E (policy_file a) (VDict m) →
  loads E (data_file a) data →
  m !! "schema" = Some schema →
  jsonschema_validate E data schema = Raises c msg →
  validation_str_raises E data schema = Some (c', msg') →
  run E a =
    (1%Z,
     [EOpen (policy_file a); EOpen (data_file a); EValidate data schema;
      ELog CRITICAL ("An unexpected error occurred: " ++ msg') true]) ∧
  stdout (run E a).2 = [].
Proof.
  intros Hp Hd Hs Hv Hstr.
  by rewrite (run_schema_present a m schema data Hp Hd Hs), Hv, Hstr.
Qed.

(** C4: when both files load and the policy is a mapping without the key
    [schema], the run logs "Policy file must contain a 'schema' key." at
    level ERROR and exits with status 1 there and then: nothing is
    printed, the validator is not called and the top-level handler is not
    entered. *)
Theorem run_schema_key_missing
    (a : args) (m : gmap string value) (data : value) :
  loads E (policy_file a) (VDict m) →
  loads E (data_file a) data →
  m !! "schema" = None →
  run E a =
    (1%Z,
     [EOpen (policy_file a); EOpen (data_file a);
      ELog ERROR "Policy file must contain a 'schema' key."
        (enabled (log_level a) ERROR)]) ∧
  stdout (run E a).2 = [] ∧
  validations (run E a).2 = [] ∧
  via_schema_exit (run E a).2 ∧
  ¬ via_top_level_handler (run E a).2.
Proof.
  intros Hp Hd Hs.
  rewrite (run_schema_absent a m data Hp Hd Hs).
  repeat split.
  - by eexists.
  - intros [msg Hlast]. discriminate.
Qed.

(** C10: when the policy file loads to a value on which the membership
    test is not defined ([None], a boolean, a number), the run exits with
    status 1 through the top-level handler, whose CRITICAL record is its
    last act; the record of the [schema] exit is not logged, nothing is
    printed and the validator is not called. *)
Theorem run_policy_not_a_container (a : args) (policy : value) :
  loads E (policy_file a) policy →
  supports_membership policy = false →
  (run E a).1 = 1%Z ∧
  via_top_level_handler (run E a).2 ∧
  (∀ b, ELog ERROR "Policy file must contain a 'schema' key." b ∉ (run E a).2) ∧
  stdout (run E a).2 = [] ∧
  validations (run E a).2 = [].
Proof.
  intros Hp Hc.
  destruct (loads_or_raises (data_file a)) as [[data Hd]|(c & msg & Hd)].
  - rewrite (run_policy_not_container a policy data Hp Hd Hc).
    repeat split; [by eexists|].
    intros b Hin. repeat (apply elem_of_cons in Hin as [Hin|Hin]; [discriminate|]).
    by apply elem_of_nil in Hin.
  - rewrite (run_data_raises a policy c msg Hp Hd).
    repeat split; [by eexists|].
    intros b Hin.
    apply elem_of_cons in Hin as [Hin|Hin]; [discriminate|].
    apply elem_of_cons in Hin as [Hin|Hin]; [discriminate|].
    apply elem_of_cons in Hin as [Hin|Hin].
    { unfold load_error_text in Hin.
      repeat case_match; discriminate. }
    apply elem_of_cons in Hin as [Hin|Hin]; [discriminate|].
    by apply elem_of_nil in Hin.
Qed.

Lemma load_data_unsupported (p f : string) (st : state) :
  endswith p ".yaml" = false →
  endswith p ".yml" = false →
  endswith p ".json" = false →
  open_file E p = Returns f →
  load_data E p st =
    (Raise (Exc ValueError "Unsupported file format. Use YAML or JSON."),
     extend st
       [EOpen p;
        ELog ERROR "Error loading data: Unsupported file format. Use YAML or JSON."
          (enabled (logger_level st) ERROR)]).
Proof.
  intros Hyaml Hyml Hjson Hopen.
  rewrite (load_data_raise p ValueError "Unsupported file format. Use YAML or JSON."
             st (extend st [EOpen p])).
  - by rewrite extend_extend.
  - unfold load_data_suite. unfold_M. by rewrite Hopen, Hyaml, Hyml, Hjson.
Qed.

Lemma unsupported_raises (p : string) :
  endswith p ".yaml" = false →
  endswith p ".yml" = false →
  endswith p ".json" = false →
  ∃ c msg, load_raises E p c msg.
Proof.
  intros Hyaml Hyml Hjson. unfold load_raises.
  destruct (open_file E p) as [f|c msg] eqn:Hopen.
  - rewrite (load_data_unsupported p f _ Hyaml Hyml Hjson Hopen). eauto.
  - rewrite (load_data_open_fails p c msg _ Hopen). eauto.
Qed.

(** A run one of whose files cannot be loaded exits with status 1
    through the top-level handler. *)
Lemma run_load_failure (a : args) (c : exn_class) (msg : string) :
  load_raises E (policy_file a) c msg ∨ load_raises E (data_file a) c msg →
  (run E a).1 = 1%Z ∧ via_top_level_handler (run E a).2.
Proof.
  intros [Hp|Hd].
  - rewrite (run_policy_raises a c msg Hp). split; [done|by eexists].
  - destruct (loads_or_raises (policy_file a)) as [[policy Hp]|(c' & msg' & Hp)].
    + rewrite (run_data_raises a policy c msg Hp Hd). split; [done|by eexists].
    + rewrite (run_policy_raises a c' msg' Hp). split; [done|by eexists].
Qed.

(** C5: a path whose name ends in none of [.yaml], [.yml], [.json] never
    loads to a value; when the file can be opened the load fails with the
    unsupported-format [ValueError], logged at level ERROR; and a run
    given such a path as [policy_file] or as [data_file] exits with
    status 1. *)
Theorem unsupported_suffix_fails (p : string) :
  endswith p ".yaml" = false →
  endswith p ".yml" = false →
  endswith p ".json" = false →
  (∀ st v, (load_data E p st).1 ≠ Ret v) ∧
  (∀ f st, open_file E p = Returns f →
     load_data E p st =
       (Raise (Exc ValueError "Unsupported file format. Use YAML or JSON."),
        extend st
          [EOpen p;
           ELog ERROR "Error loading data: Unsupported file format. Use YAML or JSON."
             (enabled (logger_level st) ERROR)])) ∧
  (∀ a, policy_file a = p ∨ data_file a = p → (run E a).1 = 1%Z).
Proof.
  intros Hyaml Hyml Hjson.
  destruct (unsupported_raises p Hyaml Hyml Hjson) as (c & msg & Hraises).
  split; [|split].
  - intros st v. by rewrite (load_raises_spec p c msg st Hraises).
  - intros f st Hopen. by apply (load_data_unsupported p f).
  - intros a Ha. apply (run_load_failure a c msg).
    destruct Ha as [-> | ->]; [by left|by right].
Qed.

(** C7, amended: when the policy path does not exist, or the policy file
    loads and the data path does not exist, [load_data] logs
    "File not found: <path>" for that path and raises again, and the run
    exits with status 1 through the top-level handler; and whenever
    either path does not exist the run exits with status 1 through the
    top-level handler. *)
Theorem run_missing_file (a : args) :
  (missing E (policy_file a) ∨ missing E (data_file a) →
     (run E a).1 = 1%Z ∧ via_top_level_handler (run E a).2) ∧
  (missing E (policy_file a) →
     file_not_found_logged (policy_file a) (run E a).2) ∧
  (∀ policy, loads E (policy_file a) policy → missing E (data_file a) →
     file_not_found_logged (data_file a) (run E a).2).
Proof.
  assert (Hraises : ∀ p, missing E p → ∃ msg, load_raises E p FileNotFoundError msg).
  { intros p [msg Hopen]. exists msg. unfold load_raises.
    by rewrite (load_data_open_fails p _ msg _ Hopen). }
  split; [|split].
  - intros [Hm|Hm]; destruct (Hraises _ Hm) as [msg Hr];
      apply (run_load_failure a FileNotFoundError msg); [by left|by right].
  - intros Hm. destruct (Hraises _ Hm) as [msg Hr].
    rewrite (run_policy_raises a _ msg Hr). eexists. simpl.
    apply elem_of_cons; right. apply elem_of_cons; left. reflexivity.
  - intros policy Hp Hm. destruct (Hraises _ Hm) as [msg Hr].
    rewrite (run_data_raises a policy _ msg Hp Hr). eexists. simpl.
    do 2 (apply elem_of_cons; right). apply elem_of_cons; left. reflexivity.
Qed.

End Properties.

(** ** Suffixes *)

Lemma substring_whole (s : string) : String.substring 0 (String.length s) s = s.
Proof. induction s as [|c s IH]; simpl; [done|by rewrite IH]. Qed.

Lemma last_char_substring (s : string) (m k : nat) :
  (0 < k)%nat → (m + k)%nat = String.length s →
  last_char (String.substring m k s) = last_char s.
Proof.
  revert m. induction s as [|c s IH]; intros m Hk Hlen; simpl in Hlen.
  - lia.
  - destruct m as [|m].
    + simpl in Hlen. subst k. simpl. by rewrite substring_whole.
    + simpl String.substring. rewrite IH by lia.
      destruct s as [|c' s]; [simpl in Hlen; lia|done].
Qed.

(** A string ends as its suffix does. *)
Lemma endswith_last_char (s suffix : string) :
  endswith s suffix = true → suffix ≠ "" →
  last_char s = last_char suffix.
Proof.
  unfold endswith. intros Hend Hne.
  apply andb_true_iff in Hend as [Hle Heq].
  apply bool_decide_eq_true in Hle. apply String.eqb_eq in Heq.
  rewrite <- (last_char_substring s (String.length s - String.length suffix)
                (String.length suffix)).
  - by rewrite Heq.
  - destruct suffix; [done|simpl; lia].
  - lia.
Qed.

Lemma endswith_json_not_yaml (p : string) :
  endswith p ".json" = true →
  endswith p ".yaml" || endswith p ".yml" = false.
Proof.
  intros Hjson. apply endswith_last_char in Hjson; [|done].
  apply orb_false_iff. split.
  - destruct (endswith p ".yaml") eqn:Hyaml; [|done].
    apply endswith_last_char in Hyaml; [|done]. rewrite Hjson in Hyaml. discriminate.
  - destruct (endswith p ".yml") eqn:Hyml; [|done].
    apply endswith_last_char in Hyml; [|done]. rewrite Hjson in Hyml. discriminate.
Qed.

(** ** Runs compared: what the log level and the path cannot change

    One rule for each construct of the monad, in the manner of a
    non-interference proof; the functions of main.py are then related to
    themselves by applying the rules along their text. *)

Create HintDb related discriminated.

Section Comparison.

Variable E : extern.

Lemma alike_extend (st1 st2 : state) (evs1 evs2 : list event) :
  alike st1 st2 → erase <$> evs1 = erase <$> evs2 →
  alike (extend st1 evs1) (extend st2 evs2).
Proof. unfold alike, extend; simpl. rewrite !fmap_app. congruence. Qed.

Lemma related_ret {A : Type} (x : A) : related (mret x) (mret x).
Proof. by intros st1 st2 Hst. Qed.

Lemma related_throw {A : Type} (e : exn) : related (mthrow e : M A) (mthrow e).
Proof. by intros st1 st2 Hst. Qed.

Lemma related_bind {A B : Type} (m1 m2 : M A) (k1 k2 : A → M B) :
  related m1 m2 → (∀ x, related (k1 x) (k2 x)) →
  related (m1 ≫= k1) (m2 ≫= k2).
Proof.
  intros Hm Hk st1 st2 Hst. unfold mbind, M_bind.
  destruct (Hm st1 st2 Hst) as [Hr Hs].
  destruct (m1 st1) as [r1 s1], (m2 st2) as [r2 s2]. simpl in Hr, Hs. subst r2.
  destruct r1 as [x|e]; [by apply Hk|done].
Qed.

Lemma related_emit (ev1 ev2 : event) :
  erase ev1 = erase ev2 → related (emit ev1) (emit ev2).
Proof.
  intros Hev st1 st2 Hst. split; [done|].
  apply (alike_extend st1 st2 [ev1] [ev2] Hst). simpl. by rewrite Hev.
Qed.

Lemma related_log (lvl : level) (msg : string) : related (log lvl msg) (log lvl msg).
Proof. intros st1 st2 Hst. unfold log. by apply related_emit. Qed.

Lemma related_setLevel (l1 l2 : level) : related (setLevel l1) (setLevel l2).
Proof. by intros st1 st2 Hst. Qed.

Lemma related_lift {A : Type} (o : outcome A) : related (lift o) (lift o).
Proof. destruct o; [apply related_ret|apply related_throw]. Qed.

Lemma related_if {A : Type} (b : bool) (m1 m2 n1 n2 : M A) :
  related m1 m2 → related n1 n2 →
  related (if b then m1 else n1) (if b then m2 else n2).
Proof. by destruct b. Qed.

Lemma related_try {A : Type} (b1 b2 : M A)
    (hs1 hs2 : list (exn_class * (exn → M A))) :
  related b1 b2 → handlers_related hs1 hs2 →
  related (try_except b1 hs1) (try_except b2 hs2).
Proof.
  intros Hb Hhs st1 st2 Hst. unfold try_except.
  destruct (Hb st1 st2 Hst) as [Hr Hs].
  destruct (b1 st1) as [r1 s1], (b2 st2) as [r2 s2]. simpl in Hr, Hs. subst r2.
  destruct r1 as [x|e]; [done|].
  induction Hhs as [|[c1 h1] [c2 h2] hs1 hs2 [Hc Hh] _ IH]; simpl; [done|].
  simpl in Hc, Hh. subst c2.
  destruct (isinstance e c1); [by apply Hh|apply IH].
Qed.

Lemma handlers_related_nil {A : Type} : @handlers_related A [] [].
Proof. constructor. Qed.

Lemma handlers_related_cons {A : Type} (c : exn_class) (h1 h2 : exn → M A)
    (hs1 hs2 : list (exn_class * (exn → M A))) :
  (∀ e, related (h1 e) (h2 e)) → handlers_related hs1 hs2 →
  handlers_related ((c, h1) :: hs1) ((c, h2) :: hs2).
Proof. intros Hh Hhs. by constructor. Qed.

Lemma related_py_str (e : exn) : related (py_str e) (py_str e).
Proof. destruct e; [apply related_ret|apply related_throw|apply related_ret]. Qed.

#[local] Hint Resolve related_ret related_throw related_log related_setLevel
  related_lift related_if related_py_str handlers_related_nil
  handlers_related_cons : related.

Ltac relate :=
  repeat first
    [ assumption
    | solve [auto with related]
    | apply related_bind; [|intros ?]
    | apply related_try
    | apply handlers_related_cons; [intros ?|]
    | apply related_if
    | apply related_emit; reflexivity ].

Lemma related_load_data (p : string) : related (load_data E p) (load_data E p).
Proof. unfold load_data, load_data_suite, py_open. relate. Qed.

(** Two files that load to the same value are loaded alike. *)
Lemma related_loads (p1 p2 : string) (v : value) :
  loads E p1 v → loads E p2 v → related (load_data E p1) (load_data E p2).
Proof.
  intros H1 H2 st1 st2 Hst.
  rewrite (loads_spec E p1 v st1 H1), (loads_spec E p2 v st2 H2).
  split; [done|]. by apply alike_extend.
Qed.

Lemma related_validate (data schema : value) :
  related (validate E data schema) (validate E data schema).
Proof.
  unfold validate. apply related_bind; [by apply related_emit|intros _].
  destruct (jsonschema_validate E data schema) as [u|c msg]; [apply related_ret|].
  destruct (validation_str_raises E data schema) as [[c' msg']|];
    apply related_throw.
Qed.

Lemma related_validate_data (data schema : value) :
  related (validate_data E data schema) (validate_data E data schema).
Proof.
  unfold validate_data. pose proof (related_validate data schema). relate.
Qed.

Lemma related_py_contains (k : string) (v : value) :
  related (py_contains E k v) (py_contains E k v).
Proof. destruct v; simpl; auto with related. Qed.

Lemma related_py_getitem (v : value) (k : string) :
  related (py_getitem E v k) (py_getitem E v k).
Proof. destruct v; simpl; try case_match; auto with related. Qed.

#[local] Hint Resolve related_validate_data related_py_contains
  related_py_getitem : related.

Lemma related_main (a1 a2 : args) :
  related (load_data E (policy_file a1)) (load_data E (policy_file a2)) →
  related (load_data E (data_file a1)) (load_data E (data_file a2)) →
  related (main E a1) (main E a2).
Proof.
  intros Hp Hd. unfold main, main_body, print, sys_exit. relate.
Qed.

Lemma stdout_erase (tr : list event) : stdout (erase <$> tr) = stdout tr.
Proof.
  induction tr as [|ev tr IH]; [done|].
  destruct ev; simpl; first [exact IH | f_equal; exact IH].
Qed.

Lemma validations_erase (tr : list event) :
  validations (erase <$> tr) = validations tr.
Proof.
  induction tr as [|ev tr IH]; [done|].
  destruct ev; simpl; first [exact IH | f_equal; exact IH].
Qed.

(** Related runs have the same verdict. *)
Lemma related_verdict (a1 a2 : args) :
  related (main E a1) (main E a2) → verdict (run E a1) = verdict (run E a2).
Proof.
  intros Hmain. unfold verdict, run.
  destruct (Hmain initial_state initial_state eq_refl) as [Hr Hs].
  destruct (main E a1 initial_state) as [r1 s1], (main E a2 initial_state) as [r2 s2].
  simpl in *. subst r2. unfold alike in Hs.
  by rewrite <- (stdout_erase (trace s1)), <- (validations_erase (trace s1)), Hs,
    stdout_erase, validations_erase.
Qed.

Lemma loads_json (p content : string) (v : value) :
  endswith p ".json" = true →
  open_file E p = Returns content →
  json_load E content = Returns v →
  loads E p v.
Proof.
  intros Hjson Hopen Hload. unfold loads.
  rewrite (load_data_return E p v initial_state (extend initial_state [EOpen p]));
    [done|].
  unfold load_data_suite. unfold_M.
  by rewrite Hopen, (endswith_json_not_yaml p Hjson), Hjson, Hload.
Qed.

Lemma loads_yaml (p content : string) (v : value) :
  endswith p ".yaml" || endswith p ".yml" = true →
  open_file E p = Returns content →
  yaml_safe_load E content = Returns v →
  loads E p v.
Proof.
  intros Hyaml Hopen Hload. unfold loads.
  rewrite (load_data_return E p v initial_state (extend initial_state [EOpen p]));
    [done|].
  unfold load_data_suite. unfold_M.
  by rewrite Hopen, Hyaml, Hload.
Qed.

(** C6: a [.json] file and a [.yaml] (or [.yml]) file whose contents
    decode to the same structured value load to equal values, and a run
    has the same exit status, the same standard output and the same call
    of the validator whichever of the two it is given, as data file or as
    policy file. *)
Theorem json_and_yaml_same_verdict (pj py cj cy : string) (v : value) :
  endswith pj ".json" = true →
  endswith py ".yaml" || endswith py ".yml" = true →
  open_file E pj = Returns cj →
  open_file E py = Returns cy →
  json_load E cj = Returns v →
  yaml_safe_load E cy = Returns v →
  (∀ st, (load_data E pj st).1 = Ret v ∧ (load_data E py st).1 = Ret v) ∧
  (∀ policy lvl,
     verdict (run E (mkArgs policy pj lvl)) = verdict (run E (mkArgs policy py lvl))) ∧
  (∀ data lvl,
     verdict (run E (mkArgs pj data lvl)) = verdict (run E (mkArgs py data lvl))).
Proof.
  intros Hjson Hyaml Hoj Hoy Hlj Hly.
  pose proof (loads_json pj cj v Hjson Hoj Hlj) as Hj.
  pose proof (loads_yaml py cy v Hyaml Hoy Hly) as Hy.
  split; [|split].
  - intros st. by rewrite (loads_spec E pj v st Hj), (loads_spec E py v st Hy).
  - intros policy lvl. apply related_verdict, related_main; simpl.
    + apply related_load_data.
    + by apply (related_loads pj py v).
  - intros data lvl. apply related_verdict, related_main; simpl.
    + by apply (related_loads pj py v).
    + apply related_load_data.
Qed.

(** C8: two runs on the same policy and data files that differ only in
    [--log_level] have the same exit status and the same standard
    output. *)
Theorem log_level_does_not_change_outcome (pf df : string) (l1 l2 : level) :
  (run E (mkArgs pf df l1)).1 = (run E (mkArgs pf df l2)).1 ∧
  stdout (run E (mkArgs pf df l1)).2 = stdout (run E (mkArgs pf df l2)).2.
Proof.
  assert (Hv : verdict (run E (mkArgs pf df l1)) = verdict (run E (mkArgs pf df l2))).
  { apply related_verdict, related_main; apply related_load_data. }
  unfold verdict in Hv. by injection Hv as -> -> _.
Qed.

End Comparison.

(** ** The scenarios of the specification, run on the concrete instance *)

Module Scenarios.

Import Demo.

Example scenario_A_run :
  (run E scenario_A).1 = 0%Z ∧
  stdout (run E scenario_A).2 = ["Data is valid according to the policy."].
Proof. by vm_compute. Qed.

Example scenario_B_run :
  (run E scenario_B).1 = 0%Z ∧
  stdout (run E scenario_B).2 = ["Data does not conform to the defined policy."] ∧
  log_stream (run E scenario_B).2 =
    [(ERROR, "Validation error: a required property is missing");
     (WARNING, "Data does not conform to the defined policy.")].
Proof. by vm_compute. Qed.

Example scenario_C_run :
  (run E scenario_C).1 = 1%Z ∧
  stdout (run E scenario_C).2 = [] ∧
  log_stream (run E scenario_C).2 =
    [(ERROR, "Policy file must contain a 'schema' key.")].
Proof. by vm_compute. Qed.

Example scenario_D_run :
  (run E scenario_D).1 = 1%Z ∧
  log_stream (run E scenario_D).2 =
    [(ERROR, "Error loading data: Unsupported file format. Use YAML or JSON.");
     (CRITICAL,
      "An unexpected error occurred: Unsupported file format. Use YAML or JSON.")].
Proof. by vm_compute. Qed.

(** With [--log_level CRITICAL] the ERROR record of scenario C is issued
    but does not reach the log stream. *)
Example scenario_C_quiet :
  run E (mkArgs "noschema.yaml" "age.yaml" CRITICAL) =
    (1%Z,
     [EOpen "noschema.yaml"; EOpen "age.yaml";
      ELog ERROR "Policy file must contain a 'schema' key." false]).
Proof. by vm_compute. Qed.

(** A string is a container: a policy that is a YAML scalar without the
    letters of [schema] leaves by the [schema] exit. *)
Example string_policy_run :
  run E (mkArgs "word.yaml" "alice.yaml" INFO) =
    (1%Z,
     [EOpen "word.yaml"; EOpen "alice.yaml";
      ELog ERROR "Policy file must contain a 'schema' key." true]).
Proof. by vm_compute. Qed.

(** The failing input of C1: the routine raises a [ValidationError] on
    the list nested 600 deep, and [validate_data] raises the
    [RecursionError] of [str()] instead of returning [False]. *)
Lemma validate_data_validation_error_cases_witness :
  Demo3.jsonschema_validate (Demo3.nest 600) Demo3.string_schema =
    Raises ValidationError "the instance is not of type 'string'" ∧
  Demo3.validation_str_raises (Demo3.nest 600) Demo3.string_schema =
    Some (RecursionError, "maximum recursion depth exceeded") ∧
  validate_data Demo3.E (Demo3.nest 600) Demo3.string_schema initial_state =
    (Raise (Exc RecursionError "maximum recursion depth exceeded"),
     extend initial_state [EValidate (Demo3.nest 600) Demo3.string_schema]).
Proof.
  do 2 (split; [by vm_compute|]).
  apply (proj2 (proj2 (validate_data_validation_error_cases Demo3.E
                         (Demo3.nest 600) Demo3.string_schema initial_state))
           "the instance is not of type 'string'"); by vm_compute.
Defined.

(** The failing input of C2: [validate_data] raises past its boundary. *)
Lemma validate_data_raises_iff_witness :
  (∃ c msg,
     Demo3.jsonschema_validate (Demo3.nest 600) Demo3.string_schema = Raises c msg) ∧
  Demo3.validation_str_raises (Demo3.nest 600) Demo3.string_schema =
    Some (RecursionError, "maximum recursion depth exceeded") ∧
  (validate_data Demo3.E (Demo3.nest 600) Demo3.string_schema initial_state).1 =
    Raise (Exc RecursionError "maximum recursion depth exceeded").
Proof.
  assert (Hv : ∃ c msg,
            Demo3.jsonschema_validate (Demo3.nest 600) Demo3.string_schema =
              Raises c msg) by (eexists _, _; by vm_compute).
  assert (Hs : Demo3.validation_str_raises (Demo3.nest 600) Demo3.string_schema =
               Some (RecursionError, "maximum recursion depth exceeded"))
    by (by vm_compute).
  do 2 (split; [assumption|]).
  exact (proj2 (validate_data_raises_iff Demo3.E (Demo3.nest 600)
                  Demo3.string_schema initial_state RecursionError
                  "maximum recursion depth exceeded") (conj Hv Hs)).
Defined.

(** The failing input of C3: both files load, the policy has the key
    [schema], and the run exits with status 1 without a sentence. *)
Lemma run_exits_1_when_str_raises_witness :
  loads Demo3.E "policy.json" (VDict {[ "schema" := Demo3.string_schema ]}) ∧
  loads Demo3.E "deep600.json" (Demo3.nest 600) ∧
  ({[ "schema" := Demo3.string_schema ]} : gmap string value) !! "schema" =
    Some Demo3.string_schema ∧
  (run Demo3.E Demo3.run_deep).1 = 1%Z ∧
  stdout (run Demo3.E Demo3.run_deep).2 = [] ∧
  validations (run Demo3.E Demo3.run_deep).2 =
    [(Demo3.nest 600, Demo3.string_schema)].
Proof.
  assert (Hp : loads Demo3.E "policy.json"
                 (VDict {[ "schema" := Demo3.string_schema ]})) by (by vm_compute).
  assert (Hd : loads Demo3.E "deep600.json" (Demo3.nest 600)) by (by vm_compute).
  assert (Hs : ({[ "schema" := Demo3.string_schema ]} : gmap string value)
                 !! "schema" = Some Demo3.string_schema) by (by vm_compute).
  do 3 (split; [assumption|]).
  destruct (run_exits_1_when_str_raises Demo3.E Demo3.run_deep _ _ _
              ValidationError "the instance is not of type 'string'"
              RecursionError "maximum recursion depth exceeded"
              Hp Hd Hs eq_refl eq_refl) as [Hrun Hout].
  rewrite Hrun. by repeat split.
Defined.

Lemma run_schema_key_missing_witness :
  loads E "noschema.yaml" (VDict {[ "notschema" := VDict ∅ ]}) ∧
  loads E "age.yaml" age5 ∧
  ({[ "notschema" := VDict ∅ ]} : gmap string value) !! "schema" = None ∧
  (run E scenario_C).1 = 1%Z ∧
  stdout (run E scenario_C).2 = [] ∧
  validations (run E scenario_C).2 = [] ∧
  ¬ via_top_level_handler (run E scenario_C).2.
Proof.
  assert (Hp : loads E "noschema.yaml" (VDict {[ "notschema" := VDict ∅ ]}))
    by (by vm_compute).
  assert (Hd : loads E "age.yaml" age5) by (by vm_compute).
  assert (Hs : ({[ "notschema" := VDict ∅ ]} : gmap string value) !! "schema" = None)
    by (by vm_compute).
  repeat (split; [assumption|]).
  destruct (run_schema_key_missing E scenario_C _ age5 Hp Hd Hs)
    as (Hrun & Hout & Hval & _ & Hnot).
  rewrite Hrun at 1. by repeat split.
Defined.

Lemma run_policy_not_a_container_witness :
  loads E "empty.yaml" VNull ∧
  supports_membership VNull = false ∧
  (run E (mkArgs "empty.yaml" "alice.json" INFO)).1 = 1%Z ∧
  via_top_level_handler (run E (mkArgs "empty.yaml" "alice.json" INFO)).2 ∧
  stdout (run E (mkArgs "empty.yaml" "alice.json" INFO)).2 = [].
Proof.
  assert (Hp : loads E "empty.yaml" VNull) by (by vm_compute).
  repeat (split; [done|]).
  destruct (run_policy_not_a_container E (mkArgs "empty.yaml" "alice.json" INFO)
              VNull Hp eq_refl) as (Hexit & Hvia & _ & Hout & _).
  by repeat split.
Defined.

Lemma unsupported_suffix_fails_witness :
  endswith "notes.txt" ".yaml" = false ∧
  endswith "notes.txt" ".yml" = false ∧
  endswith "notes.txt" ".json" = false ∧
  (∀ st v, (load_data E "notes.txt" st).1 ≠ Ret v) ∧
  (run E scenario_D).1 = 1%Z.
Proof.
  do 3 (split; [by vm_compute|]).
  destruct (unsupported_suffix_fails E "notes.txt" eq_refl eq_refl eq_refl)
    as (Hnever & _ & Hrun).
  split; [exact Hnever|]. apply Hrun. by right.
Defined.

Lemma json_and_yaml_same_verdict_witness :
  endswith "alice.json" ".json" = true ∧
  endswith "alice.yaml" ".yaml" || endswith "alice.yaml" ".yml" = true ∧
  open_file "alice.json" = Returns alice_json ∧
  open_file "alice.yaml" = Returns "name: alice" ∧
  json_load alice_json = Returns alice ∧
  yaml_safe_load "name: alice" = Returns alice ∧
  verdict (run E (mkArgs "policy.yaml" "alice.json" INFO)) =
    verdict (run E (mkArgs "policy.yaml" "alice.yaml" INFO)).
Proof.
  repeat (split; [by vm_compute|]).
  apply (json_and_yaml_same_verdict E "alice.json" "alice.yaml" alice_json
           "name: alice" alice); by vm_compute.
Defined.

Lemma load_data_missing_file_any_suffix_witness :
  open_file "gone.txt" =
    Raises FileNotFoundError "[Errno 2] No such file or directory: 'gone.txt'" ∧
  load_data E "gone.txt" initial_state =
    (Raise (Exc FileNotFoundError "[Errno 2] No such file or directory: 'gone.txt'"),
     extend initial_state
       [EOpen "gone.txt";
        ELog ERROR ("File not found: " ++ "gone.txt")
          (enabled (logger_level initial_state) ERROR)]).
Proof.
  split; [by vm_compute|].
  apply (load_data_missing_file_any_suffix E "gone.txt"). by vm_compute.
Defined.

Lemma run_missing_file_witness :
  missing E "gone.yaml" ∧
  (run E (mkArgs "gone.yaml" "alice.yaml" INFO)).1 = 1%Z ∧
  via_top_level_handler (run E (mkArgs "gone.yaml" "alice.yaml" INFO)).2 ∧
  file_not_found_logged "gone.yaml" (run E (mkArgs "gone.yaml" "alice.yaml" INFO)).2.
Proof.
  assert (Hm : missing E "gone.yaml") by (eexists; by vm_compute).
  split; [exact Hm|].
  destruct (run_missing_file E (mkArgs "gone.yaml" "alice.yaml" INFO))
    as (Hexit & Hpolicy & _).
  destruct (Hexit (or_introl Hm)) as [H1 Hvia].
  split; [exact H1|split; [exact Hvia|exact (Hpolicy Hm)]].
Defined.

(** C7 as the specification words it fails: the data path does not exist,
    but the policy file has an unsupported suffix, so the run ends on
    the policy file and never reports a file as not found. *)
Lemma missing_data_file_not_reported :
  missing E "gone.json" ∧
  ¬ (∃ p, file_not_found_logged p (run E (mkArgs "notes.txt" "gone.json" INFO)).2).
Proof.
  split; [eexists; by vm_compute|].
  intros (p & b & Hin). vm_compute in Hin.
  repeat (apply elem_of_cons in Hin as [Hin|Hin]; [discriminate|]).
  by apply elem_of_nil in Hin.
Qed.

End Scenarios.

(** * Further properties of the loader *)

Section Loader.

Variable E : extern.

(** X1: [load_data] either returns a value having done nothing but open
    the file, or raises an instance of an [Exception] class after logging
    exactly one record, at level ERROR; it never prints, never calls the
    validator and leaves the logger's level alone. *)
Theorem load_data_effect (p : string) (st : state) :
  logger_level (load_data E p st).2 = logger_level st ∧
  ((∃ v, (load_data E p st).1 = Ret v ∧
         trace (load_data E p st).2 = (trace st ++ [EOpen p])%list) ∨
   (∃ c msg text,
      (load_data E p st).1 = Raise (Exc c msg) ∧
      trace (load_data E p st).2 =
        (trace st ++
         [EOpen p; ELog ERROR text (enabled (logger_level st) ERROR)])%list)).
Proof.
  destruct (load_data_cases E p) as [[v Hv]|(c & msg & Hc)].
  - rewrite Hv. split; [done|]. left. by exists v.
  - rewrite Hc. split; [done|]. right. by eexists c, msg, _.
Qed.

(** X2: for a path ending in [.yaml] or [.yml] that can be opened, the
    result of [load_data] is the outcome of [yaml.safe_load] on the
    stream, value or exception, unchanged; [json.load] plays no part. *)
Theorem load_data_yaml_passes_through (p f : string) (st : state) :
  endswith p ".yaml" || endswith p ".yml" = true →
  open_file E p = Returns f →
  (load_data E p st).1 =
    match yaml_safe_load E f with
    | Returns v => Ret v
    | Raises c msg => Raise (Exc c msg)
    end.
Proof.
  intros Hyaml Hopen.
  destruct (yaml_safe_load E f) as [v|c msg] eqn:Hload.
  - rewrite (load_data_return E p v st (extend st [EOpen p])); [done|].
    unfold load_data_suite. unfold_M. by rewrite Hopen, Hyaml, Hload.
  - rewrite (load_data_raise E p c msg st (extend st [EOpen p])); [done|].
    unfold load_data_suite. unfold_M. by rewrite Hopen, Hyaml, Hload.
Qed.

(** X3: for a path ending in [.json] that can be opened, the result of
    [load_data] is the outcome of [json.load] on the stream, value or
    exception, unchanged; [yaml.safe_load] plays no part. *)
Theorem load_data_json_passes_through (p f : string) (st : state) :
  endswith p ".json" = true →
  open_file E p = Returns f →
  (load_data E p st).1 =
    match json_load E f with
    | Returns v => Ret v
    | Raises c msg => Raise (Exc c msg)
    end.
Proof.
  intros Hjson Hopen.
  pose proof (endswith_json_not_yaml p Hjson) as Hyaml.
  destruct (json_load E f) as [v|c msg] eqn:Hload.
  - rewrite (load_data_return E p v st (extend st [EOpen p])); [done|].
    unfold load_data_suite. unfold_M. by rewrite Hopen, Hyaml, Hjson, Hload.
  - rewrite (load_data_raise E p c msg st (extend st [EOpen p])); [done|].
    unfold load_data_suite. unfold_M. by rewrite Hopen, Hyaml, Hjson, Hload.
Qed.

(** X4: a YAML document that does not parse: the [YAMLError] of the
    decoder is logged as "Error parsing YAML file: <message>" at level
    ERROR and raised again, the same object. *)
Theorem load_data_yaml_parse_error (p f msg : string) (st : state) :
  endswith p ".yaml" || endswith p ".yml" = true →
  open_file E p = Returns f →
  yaml_safe_load E f = Raises YAMLError msg →
  load_data E p st =
    (Raise (Exc YAMLError msg),
     extend st [EOpen p;
                ELog ERROR ("Error parsing YAML file: " ++ msg)
                  (enabled (logger_level st) ERROR)]).
Proof.
  intros Hyaml Hopen Hload.
  rewrite (load_data_raise E p YAMLError msg st (extend st [EOpen p])).
  - by rewrite extend_extend.
  - unfold load_data_suite. unfold_M. by rewrite Hopen, Hyaml, Hload.
Qed.

(** X5: a JSON document that does not parse: the [JSONDecodeError] of
    the decoder is logged as "Error parsing JSON file: <message>" at
    level ERROR (by its own clause, although it is a [ValueError] too)
    and raised again, the same object. *)
Theorem load_data_json_parse_error (p f msg : string) (st : state) :
  endswith p ".json" = true →
  open_file E p = Returns f →
  json_load E f = Raises JSONDecodeError msg →
  load_data E p st =
    (Raise (Exc JSONDecodeError msg),
     extend st [EOpen p;
                ELog ERROR ("Error parsing JSON file: " ++ msg)
                  (enabled (logger_level st) ERROR)]).
Proof.
  intros Hjson Hopen Hload.
  rewrite (load_data_raise E p JSONDecodeError msg st (extend st [EOpen p])).
  - by rewrite extend_extend.
  - unfold load_data_suite. unfold_M.
    by rewrite Hopen, (endswith_json_not_yaml p Hjson), Hjson, Hload.
Qed.

(** X6: whatever makes the load fail, an exception that is none of
    [FileNotFoundError], [YAMLError], [JSONDecodeError] (a file that may
    not be read, a directory, bytes that are not text) is logged as
    "Error loading data: <message>" at level ERROR and raised again. *)
Theorem load_data_other_error (p : string) (c : exn_class) (msg : string) (st : state) :
  load_raises E p c msg →
  c ∉ [FileNotFoundError; YAMLError; JSONDecodeError] →
  load_data E p st =
    (Raise (Exc c msg),
     extend st [EOpen p;
                ELog ERROR ("Error loading data: " ++ msg)
                  (enabled (logger_level st) ERROR)]).
Proof.
  intros Hraises Hc. rewrite (load_raises_spec E p c msg st Hraises).
  destruct c; try reflexivity; exfalso; apply Hc; set_solver.
Qed.

End Loader.

(** * Further properties of a run *)

Section Paths.

Variable E : extern.

Lemma py_contains_state (k : string) (v : value) (st : state) :
  py_contains E k v st = ((py_contains E k v initial_state).1, st).
Proof. by destruct v. Qed.

Lemma run_key_absent (a : args) (policy data : value) :
  loads E (policy_file a) policy →
  loads E (data_file a) data →
  schema_in E policy = Ret false →
  run E a =
    (1%Z,
     [EOpen (policy_file a); EOpen (data_file a);
      ELog ERROR "Policy file must contain a 'schema' key."
        (enabled (log_level a) ERROR)]).
Proof.
  unfold schema_in. intros Hp Hd Hin. unfold run. rewrite main_unfold.
  cbv [main_body mbind M_bind].
  rewrite (loads_spec _ _ _ _ Hp). cbv beta iota.
  rewrite (loads_spec _ _ _ _ Hd). cbv beta iota.
  rewrite py_contains_state, Hin. reflexivity.
Qed.

Lemma run_lookup_fails (a : args) (policy data : value) :
  loads E (policy_file a) policy →
  loads E (data_file a) data →
  schema_in E policy = Ret true →
  is_mapping policy = false →
  run E a =
    (1%Z,
     [EOpen (policy_file a); EOpen (data_file a);
      ELog CRITICAL
        ("An unexpected error occurred: " ++ not_subscriptable_str E policy) true]).
Proof.
  unfold schema_in. intros Hp Hd Hin Hmap. unfold run. rewrite main_unfold.
  cbv [main_body mbind M_bind].
  rewrite (loads_spec _ _ _ _ Hp). cbv beta iota.
  rewrite (loads_spec _ _ _ _ Hd). cbv beta iota.
  rewrite py_contains_state, Hin.
  destruct policy; try discriminate; reflexivity.
Qed.

(** Every run takes one of the paths. *)
Lemma run_shape_total (a : args) :
  ∃ status tr, run E a = (status, tr) ∧ run_shape E a status tr.
Proof.
  destruct (loads_or_raises E (policy_file a)) as [[policy Hp]|(c & msg & Hp)].
  2: { eexists _, _. split; [apply (run_policy_raises E a c msg Hp)|].
       by apply policy_fails. }
  destruct (loads_or_raises E (data_file a)) as [[data Hd]|(c & msg & Hd)].
  2: { eexists _, _. split; [apply (run_data_raises E a policy c msg Hp Hd)|].
       by apply (data_fails E a policy). }
  destruct (supports_membership policy) eqn:Hsup.
  2: { eexists _, _. split; [apply (run_policy_not_container E a policy data Hp Hd Hsup)|].
       by apply (membership_fails E a policy data). }
  destruct (schema_in E policy) as [[|]|e] eqn:Hin.
  - destruct policy as [| | | |s|l|m]; try discriminate.
    + eexists _, _. split; [by apply (run_lookup_fails a (VStr s) data)|].
      by apply (lookup_fails E a (VStr s) data).
    + eexists _, _. split; [by apply (run_lookup_fails a (VList l) data)|].
      by apply (lookup_fails E a (VList l) data).
    + unfold schema_in in Hin. simpl in Hin. injection Hin as Hin.
      apply bool_decide_eq_true in Hin as [schema Hs].
      pose proof (run_schema_present E a m schema data Hp Hd Hs) as Hrun.
      destruct (jsonschema_validate E data schema) as [[]|c msg] eqn:Hv.
      { eexists _, _. split; [exact Hrun|].
        by apply (validated_conforms E a m data schema). }
      destruct (validation_str_raises E data schema) as [[c' msg']|] eqn:Hstr.
      * eexists _, _. split; [exact Hrun|].
        by apply (formatting_fails E a m data schema c msg c' msg').
      * eexists _, _. split; [exact Hrun|].
        by apply (validated_fails E a m data schema c msg).
  - eexists _, _. split; [by apply (run_key_absent a policy data)|].
    by apply (key_absent E a policy data).
  - destruct policy; discriminate.
Qed.

Ltac with_shape a :=
  let status := fresh "status" in
  let tr := fresh "tr" in
  let Hrun := fresh "Hrun" in
  let Hshape := fresh "Hshape" in
  destruct (run_shape_total a) as (status & tr & Hrun & Hshape);
  rewrite Hrun; cbn [fst snd].

Ltac not_in_list H :=
  repeat (apply elem_of_cons in H as [H|H]; [try discriminate|]);
  try (by apply elem_of_nil in H).

(** X7: once the arguments are parsed, a run exits with status 0 or 1.
    With status 0 exactly one of the two sentences was printed and the
    validator was called once; with status 1 nothing was printed and the
    validator was called at most once. *)
Theorem run_status_and_output (a : args) :
  ((run E a).1 = 0%Z ∧
   (stdout (run E a).2 = ["Data is valid according to the policy."] ∨
    stdout (run E a).2 = ["Data does not conform to the defined policy."]) ∧
   length (validations (run E a).2) = 1) ∨
  ((run E a).1 = 1%Z ∧ stdout (run E a).2 = [] ∧
   (length (validations (run E a).2) ≤ 1)%nat).
Proof.
  with_shape a.
  destruct Hshape; simpl; first [by left; auto | right; repeat split; simpl; lia].
Qed.

(** X8: once the arguments are parsed, a run exits with status 0 exactly
    when both files load, the policy is a mapping with the key [schema],
    and the validator returns or raises an exception whose [str()] can be
    computed. *)
Theorem run_exit_0_iff (a : args) :
  (run E a).1 = 0%Z ↔
  ∃ m data schema,
    loads E (policy_file a) (VDict m) ∧ loads E (data_file a) data ∧
    m !! "schema" = Some schema ∧
    (jsonschema_validate E data schema = Returns tt ∨
     validation_str_raises E data schema = None).
Proof.
  split.
  - with_shape a. destruct Hshape; try discriminate; intros _.
    + exists m, data, schema. eauto.
    + exists m, data, schema. eauto.
  - intros (m & data & schema & Hp & Hd & Hs & Hok).
    rewrite (run_schema_present E a m schema data Hp Hd Hs).
    destruct Hok as [-> | Hstr]; [done|].
    rewrite Hstr. by destruct (jsonschema_validate E data schema).
Qed.

(** X9: the validator is called once, on the loaded data document as
    instance and on the value of the policy at [schema] as schema, and
    the sentence "Data is valid according to the policy." is printed
    exactly when it raises nothing. *)
Theorem run_validator_call_and_sentence
    (a : args) (m : gmap string value) (data schema : value) :
  loads E (policy_file a) (VDict m) →
  loads E (data_file a) data →
  m !! "schema" = Some schema →
  validations (run E a).2 = [(data, schema)] ∧
  (stdout (run E a).2 = ["Data is valid according to the policy."] ↔
     jsonschema_validate E data schema = Returns tt).
Proof.
  intros Hp Hd Hs. rewrite (run_schema_present E a m schema data Hp Hd Hs).
  destruct (jsonschema_validate E data schema) as [[]|c msg]; simpl.
  - done.
  - destruct (validation_str_raises E data schema) as [[c' msg']|]; simpl;
      (split; [done|]); split; discriminate.
Qed.

(** X10: a schema the validator rejects as a schema (any exception that
    is not a [ValidationError]) is reported like data that does not
    conform, provided [str()] of the exception can be computed: the error
    is logged as "Unexpected error during validation", the sentence
    "Data does not conform to the defined policy." is printed and the
    exit status is 0. *)
Theorem run_schema_error_reported_as_nonconformance
    (a : args) (m : gmap string value) (data schema : value)
    (c : exn_class) (msg : string) :
  loads E (policy_file a) (VDict m) →
  loads E (data_file a) data →
  m !! "schema" = Some schema →
  jsonschema_validate E data schema = Raises c msg →
  validation_str_raises E data schema = None →
  c ≠ ValidationError →
  run E a =
    (0%Z,
     [EOpen (policy_file a); EOpen (data_file a); EValidate data schema;
      ELog ERROR ("Unexpected error during validation: " ++ msg)
        (enabled (log_level a) ERROR);
      ELog WARNING "Data does not conform to the defined policy."
        (enabled (log_level a) WARNING);
      EPrint "Data does not conform to the defined policy."]).
Proof.
  intros Hp Hd Hs Hv Hstr Hc.
  rewrite (run_schema_present E a m schema data Hp Hd Hs), Hv, Hstr.
  by destruct c.
Qed.

Lemma log_stream_elem (tr : list event) (lvl : level) (msg : string) :
  (lvl, msg) ∈ log_stream tr → ELog lvl msg true ∈ tr.
Proof.
  unfold log_stream. intros Hin.
  apply list_elem_of_omap in Hin as (ev & Hev & Hsome).
  destruct ev as [| |lvl' msg' [|]|]; try discriminate.
  by injection Hsome as -> ->.
Qed.

(** X11: the level given as [--log_level] governs every record of the
    run: a logging call gets through exactly when its level is at least
    that level, so no record below it reaches the log stream. *)
Theorem run_log_records_respect_level (a : args) :
  (∀ lvl msg b, ELog lvl msg b ∈ (run E a).2 → b = enabled (log_level a) lvl) ∧
  (∀ lvl msg, (lvl, msg) ∈ log_stream (run E a).2 →
     (levelno (log_level a) ≤ levelno lvl)%Z).
Proof.
  assert (Hcalls : ∀ lvl msg b,
            ELog lvl msg b ∈ (run E a).2 → b = enabled (log_level a) lvl).
  { with_shape a. intros lvl msg b Hin.
    destruct Hshape; simpl in Hin;
      repeat (apply elem_of_cons in Hin as [Hin|Hin];
              [try discriminate;
               injection Hin as -> -> ->; try reflexivity; by destruct (log_level a)|]);
      by apply elem_of_nil in Hin. }
  split; [exact Hcalls|].
  intros lvl msg Hin. apply log_stream_elem in Hin.
  apply Hcalls in Hin. symmetry in Hin. by apply bool_decide_eq_true in Hin.
Qed.

(** X12: the policy file is loaded first, and when that fails the data
    file is not opened: the run exits with status 1 through the
    top-level handler having opened the policy file only. *)
Theorem policy_failure_leaves_data_unopened (a : args) (c : exn_class) (msg : string) :
  load_raises E (policy_file a) c msg →
  (run E a).1 = 1%Z ∧
  opens (run E a).2 = [policy_file a] ∧
  via_top_level_handler (run E a).2.
Proof.
  intros Hp. rewrite (run_policy_raises E a c msg Hp).
  split; [done|]. split; [done|]. by eexists.
Qed.

(** X13: the data file is loaded before the policy is looked at: when it
    fails to load, the run ends in the top-level handler whatever the
    policy holds, with or without the key [schema], and the record
    "Policy file must contain a 'schema' key." is not logged. *)
Theorem data_failure_precedes_schema_check
    (a : args) (policy : value) (c : exn_class) (msg : string) :
  loads E (policy_file a) policy →
  load_raises E (data_file a) c msg →
  (run E a).1 = 1%Z ∧
  opens (run E a).2 = [policy_file a; data_file a] ∧
  via_top_level_handler (run E a).2 ∧
  (∀ b, ELog ERROR "Policy file must contain a 'schema' key." b ∉ (run E a).2).
Proof.
  intros Hp Hd. rewrite (run_data_raises E a policy c msg Hp Hd).
  split; [done|]. split; [done|]. split; [by eexists|].
  intros b Hin.
  apply elem_of_cons in Hin as [Hin|Hin]; [discriminate|].
  apply elem_of_cons in Hin as [Hin|Hin]; [discriminate|].
  apply elem_of_cons in Hin as [Hin|Hin].
  { unfold load_error_text in Hin. repeat case_match; discriminate. }
  not_in_list Hin.
Qed.

(** X14: a policy that is a string or a sequence is a container, so the
    membership test decides: when the string [schema] does not occur in
    it the run leaves by the [schema] exit, like a mapping without the
    key; when it occurs the key lookup raises [TypeError] and the run
    ends in the top-level handler.  Either way the status is 1 and
    nothing is validated or printed. *)
Theorem run_sequence_or_string_policy (a : args) (policy data : value) :
  loads E (policy_file a) policy →
  loads E (data_file a) data →
  supports_membership policy = true →
  is_mapping policy = false →
  (run E a).1 = 1%Z ∧
  stdout (run E a).2 = [] ∧
  validations (run E a).2 = [] ∧
  ∃ occurs, schema_in E policy = Ret occurs ∧
    if occurs then via_top_level_handler (run E a).2
    else via_schema_exit (run E a).2.
Proof.
  intros Hp Hd Hsup Hmap.
  destruct (schema_in E policy) as [[|]|e] eqn:Hin.
  - rewrite (run_lookup_fails a policy data Hp Hd Hin Hmap).
    do 3 (split; [done|]). exists true. split; [done|]. by eexists.
  - rewrite (run_key_absent a policy data Hp Hd Hin).
    do 3 (split; [done|]). exists false. split; [done|]. by eexists.
  - destruct policy; discriminate.
Qed.

(** X15: when a file fails to load, the text of the exception
    [load_data] raised again is in the CRITICAL record of the top-level
    handler, and that record reaches the log stream at every log level. *)
Theorem load_failure_critical_record (a : args) (c : exn_class) (msg : string) :
  load_raises E (policy_file a) c msg ∨
  ((∃ policy, loads E (policy_file a) policy) ∧ load_raises E (data_file a) c msg) →
  (CRITICAL, "An unexpected error occurred: " ++ msg) ∈ log_stream (run E a).2.
Proof.
  intros [Hp|[[policy Hp] Hd]].
  - rewrite (run_policy_raises E a c msg Hp). unfold log_stream. simpl.
    destruct (enabled (log_level a) ERROR); set_solver.
  - rewrite (run_data_raises E a policy c msg Hp Hd). unfold log_stream. simpl.
    destruct (enabled (log_level a) ERROR); set_solver.
Qed.

(** X16: with [--log_level CRITICAL] a policy without the key [schema]
    makes the run exit with status 1 in silence: nothing on standard
    output and nothing in the log stream. *)
Theorem schema_exit_silent_at_critical (a : args) (policy data : value) :
  loads E (policy_file a) policy →
  loads E (data_file a) data →
  schema_in E policy = Ret false →
  log_level a = CRITICAL →
  (run E a).1 = 1%Z ∧ stdout (run E a).2 = [] ∧ log_stream (run E a).2 = [].
Proof.
  intros Hp Hd Hin Hlvl.
  rewrite (run_key_absent a policy data Hp Hd Hin), Hlvl. by vm_compute.
Qed.

(** X17: of a policy that is a mapping only the key [schema] counts: two
    policies with the same value (or none) at [schema], run on the same
    data file, give the same exit status, standard output and call of
    the validator, whatever their other keys and the log levels. *)
Theorem only_the_schema_key_matters (a1 a2 : args) (m1 m2 : gmap string value) :
  loads E (policy_file a1) (VDict m1) →
  loads E (policy_file a2) (VDict m2) →
  m1 !! "schema" = m2 !! "schema" →
  data_file a1 = data_file a2 →
  verdict (run E a1) = verdict (run E a2).
Proof.
  intros Hp1 Hp2 Hs Hdata.
  destruct (loads_or_raises E (data_file a1)) as [[data Hd1]|(c & msg & Hd1)].
  - pose proof Hd1 as Hd2. rewrite Hdata in Hd2.
    destruct (m1 !! "schema") as [schema|] eqn:Hs1; symmetry in Hs.
    + rewrite (run_schema_present E a1 m1 schema data Hp1 Hd1 Hs1),
        (run_schema_present E a2 m2 schema data Hp2 Hd2 Hs).
      destruct (jsonschema_validate E data schema); [done|].
      by destruct (validation_str_raises E data schema) as [[c' msg']|].
    + by rewrite (run_schema_absent E a1 m1 data Hp1 Hd1 Hs1),
        (run_schema_absent E a2 m2 data Hp2 Hd2 Hs).
  - pose proof Hd1 as Hd2. rewrite Hdata in Hd2.
    by rewrite (run_data_raises E a1 _ c msg Hp1 Hd1),
      (run_data_raises E a2 _ c msg Hp2 Hd2).
Qed.

(** X18: the verdict of a run depends on its files through the values
    they load to only: two runs whose policy files load to the same value
    and whose data files load to the same value have the same exit
    status, standard output and call of the validator, whatever the
    paths, the formats and the log levels. *)
Theorem verdict_depends_on_loaded_values
    (a1 a2 : args) (policy data : value) :
  loads E (policy_file a1) policy →
  loads E (policy_file a2) policy →
  loads E (data_file a1) data →
  loads E (data_file a2) data →
  verdict (run E a1) = verdict (run E a2).
Proof.
  intros Hp1 Hp2 Hd1 Hd2.
  apply related_verdict, related_main.
  - by apply (related_loads E _ _ policy).
  - by apply (related_loads E _ _ data).
Qed.

End Paths.

(** ** The further properties on the second instance *)

Module MoreScenarios.

Import Demo2.

Lemma load_data_yaml_passes_through_witness :
  endswith "alice.yaml" ".yaml" || endswith "alice.yaml" ".yml" = true ∧
  open_file "alice.yaml" = Returns "name: alice" ∧
  (load_data E "alice.yaml" initial_state).1 = Ret Demo.alice.
Proof.
  do 2 (split; [by vm_compute|]).
  exact (load_data_yaml_passes_through E "alice.yaml" "name: alice" initial_state
           eq_refl eq_refl).
Defined.

Lemma load_data_json_passes_through_witness :
  endswith "broken.json" ".json" = true ∧
  open_file "broken.json" = Returns "{" ∧
  (load_data E "broken.json" initial_state).1 =
    Raise (Exc JSONDecodeError "Expecting property name enclosed in double quotes").
Proof.
  do 2 (split; [by vm_compute|]).
  exact (load_data_json_passes_through E "broken.json" "{" initial_state
           eq_refl eq_refl).
Defined.

Lemma load_data_yaml_parse_error_witness :
  endswith "broken.yaml" ".yaml" || endswith "broken.yaml" ".yml" = true ∧
  open_file "broken.yaml" = Returns "a: [" ∧
  yaml_safe_load "a: [" =
    Raises YAMLError "while parsing a flow sequence: expected ',' or ']'" ∧
  load_data E "broken.yaml" initial_state =
    (Raise (Exc YAMLError "while parsing a flow sequence: expected ',' or ']'"),
     extend initial_state
       [EOpen "broken.yaml";
        ELog ERROR
          ("Error parsing YAML file: " ++
           "while parsing a flow sequence: expected ',' or ']'")
          (enabled (logger_level initial_state) ERROR)]).
Proof.
  do 3 (split; [by vm_compute|]).
  exact (load_data_yaml_parse_error E "broken.yaml" "a: [" _ initial_state
           eq_refl eq_refl eq_refl).
Defined.

Lemma load_data_json_parse_error_witness :
  endswith "broken.json" ".json" = true ∧
  open_file "broken.json" = Returns "{" ∧
  json_load E "{" =
    Raises JSONDecodeError "Expecting property name enclosed in double quotes" ∧
  load_data E "broken.json" initial_state =
    (Raise (Exc JSONDecodeError "Expecting property name enclosed in double quotes"),
     extend initial_state
       [EOpen "broken.json";
        ELog ERROR
          ("Error parsing JSON file: " ++
           "Expecting property name enclosed in double quotes")
          (enabled (logger_level initial_state) ERROR)]).
Proof.
  do 3 (split; [by vm_compute|]).
  exact (load_data_json_parse_error E "broken.json" "{" _ initial_state
           eq_refl eq_refl eq_refl).
Defined.

Lemma load_data_other_error_witness :
  load_raises E "locked.yaml" PermissionError
    "[Errno 13] Permission denied: 'locked.yaml'" ∧
  (PermissionError ∉ [FileNotFoundError; YAMLError; JSONDecodeError]) ∧
  load_data E "locked.yaml" initial_state =
    (Raise (Exc PermissionError "[Errno 13] Permission denied: 'locked.yaml'"),
     extend initial_state
       [EOpen "locked.yaml";
        ELog ERROR
          ("Error loading data: " ++ "[Errno 13] Permission denied: 'locked.yaml'")
          (enabled (logger_level initial_state) ERROR)]).
Proof.
  assert (Hr : load_raises E "locked.yaml" PermissionError
                 "[Errno 13] Permission denied: 'locked.yaml'") by (by vm_compute).
  assert (Hc : PermissionError ∉ [FileNotFoundError; YAMLError; JSONDecodeError])
    by (apply (bool_decide_unpack _); by vm_compute).
  split; [exact Hr|]. split; [exact Hc|].
  exact (load_data_other_error E "locked.yaml" _ _ initial_state Hr Hc).
Defined.

Lemma run_validator_call_and_sentence_witness :
  loads E "policy.yaml" (VDict {[ "schema" := Demo.schema_A ]}) ∧
  loads E "alice.yaml" Demo.alice ∧
  ({[ "schema" := Demo.schema_A ]} : gmap string value) !! "schema" =
    Some Demo.schema_A ∧
  validations (run E run_valid).2 = [(Demo.alice, Demo.schema_A)] ∧
  (stdout (run E run_valid).2 = ["Data is valid according to the policy."] ↔
     jsonschema_validate E Demo.alice Demo.schema_A = Returns tt).
Proof.
  assert (Hp : loads E "policy.yaml" (VDict {[ "schema" := Demo.schema_A ]}))
    by (by vm_compute).
  assert (Hd : loads E "alice.yaml" Demo.alice) by (by vm_compute).
  assert (Hs : ({[ "schema" := Demo.schema_A ]} : gmap string value) !! "schema" =
               Some Demo.schema_A) by (by vm_compute).
  do 3 (split; [assumption|]).
  exact (run_validator_call_and_sentence E run_valid _ _ _ Hp Hd Hs).
Defined.

Lemma run_schema_error_reported_as_nonconformance_witness :
  loads E "badschema.yaml" (VDict {[ "schema" := VInt 5 ]}) ∧
  loads E "alice.yaml" Demo.alice ∧
  ({[ "schema" := VInt 5 ]} : gmap string value) !! "schema" = Some (VInt 5) ∧
  jsonschema_validate E Demo.alice (VInt 5) =
    Raises SchemaError "the schema is not of type object or boolean" ∧
  validation_str_raises E Demo.alice (VInt 5) = None ∧
  SchemaError ≠ ValidationError ∧
  (run E run_bad_schema).1 = 0%Z ∧
  stdout (run E run_bad_schema).2 = ["Data does not conform to the defined policy."].
Proof.
  assert (Hp : loads E "badschema.yaml" (VDict {[ "schema" := VInt 5 ]}))
    by (by vm_compute).
  assert (Hd : loads E "alice.yaml" Demo.alice) by (by vm_compute).
  assert (Hs : ({[ "schema" := VInt 5 ]} : gmap string value) !! "schema" =
               Some (VInt 5)) by (by vm_compute).
  assert (Hv : jsonschema_validate E Demo.alice (VInt 5) =
               Raises SchemaError "the schema is not of type object or boolean")
    by (by vm_compute).
  assert (Hstr : validation_str_raises E Demo.alice (VInt 5) = None)
    by (by vm_compute).
  assert (Hc : SchemaError ≠ ValidationError) by discriminate.
  do 6 (split; [assumption|]).
  by rewrite (run_schema_error_reported_as_nonconformance E run_bad_schema
                _ _ _ _ _ Hp Hd Hs Hv Hstr Hc).
Defined.

Lemma policy_failure_leaves_data_unopened_witness :
  load_raises E "broken.yaml" YAMLError
    "while parsing a flow sequence: expected ',' or ']'" ∧
  (run E (mkArgs "broken.yaml" "alice.yaml" INFO)).1 = 1%Z ∧
  opens (run E (mkArgs "broken.yaml" "alice.yaml" INFO)).2 = ["broken.yaml"] ∧
  via_top_level_handler (run E (mkArgs "broken.yaml" "alice.yaml" INFO)).2.
Proof.
  assert (Hp : load_raises E "broken.yaml" YAMLError
                 "while parsing a flow sequence: expected ',' or ']'")
    by (by vm_compute).
  split; [exact Hp|].
  exact (policy_failure_leaves_data_unopened E
           (mkArgs "broken.yaml" "alice.yaml" INFO) _ _ Hp).
Defined.

Lemma data_failure_precedes_schema_check_witness :
  loads E "noschema.yaml" Demo.policy_C ∧
  load_raises E "gone.yaml" FileNotFoundError
    "[Errno 2] No such file or directory: 'gone.yaml'" ∧
  (run E (mkArgs "noschema.yaml" "gone.yaml" INFO)).1 = 1%Z ∧
  opens (run E (mkArgs "noschema.yaml" "gone.yaml" INFO)).2 =
    ["noschema.yaml"; "gone.yaml"] ∧
  via_top_level_handler (run E (mkArgs "noschema.yaml" "gone.yaml" INFO)).2 ∧
  (∀ b, ELog ERROR "Policy file must contain a 'schema' key." b ∉
          (run E (mkArgs "noschema.yaml" "gone.yaml" INFO)).2).
Proof.
  assert (Hp : loads E "noschema.yaml" Demo.policy_C) by (by vm_compute).
  assert (Hd : load_raises E "gone.yaml" FileNotFoundError
                 "[Errno 2] No such file or directory: 'gone.yaml'")
    by (by vm_compute).
  do 2 (split; [assumption|]).
  exact (data_failure_precedes_schema_check E
           (mkArgs "noschema.yaml" "gone.yaml" INFO) _ _ _ Hp Hd).
Defined.

Lemma run_sequence_or_string_policy_witness :
  loads E "title.yaml" (VStr "my schema") ∧
  loads E "alice.yaml" Demo.alice ∧
  supports_membership (VStr "my schema") = true ∧
  is_mapping (VStr "my schema") = false ∧
  (run E (mkArgs "title.yaml" "alice.yaml" INFO)).1 = 1%Z ∧
  stdout (run E (mkArgs "title.yaml" "alice.yaml" INFO)).2 = [] ∧
  validations (run E (mkArgs "title.yaml" "alice.yaml" INFO)).2 = [] ∧
  ∃ occurs, schema_in E (VStr "my schema") = Ret occurs ∧
    if occurs then via_top_level_handler (run E (mkArgs "title.yaml" "alice.yaml" INFO)).2
    else via_schema_exit (run E (mkArgs "title.yaml" "alice.yaml" INFO)).2.
Proof.
  assert (Hp : loads E "title.yaml" (VStr "my schema")) by (by vm_compute).
  assert (Hd : loads E "alice.yaml" Demo.alice) by (by vm_compute).
  do 2 (split; [assumption|]). do 2 (split; [reflexivity|]).
  exact (run_sequence_or_string_policy E (mkArgs "title.yaml" "alice.yaml" INFO)
           _ _ Hp Hd eq_refl eq_refl).
Defined.

Lemma load_failure_critical_record_witness :
  load_raises E "locked.yaml" PermissionError
    "[Errno 13] Permission denied: 'locked.yaml'" ∧
  (CRITICAL,
   "An unexpected error occurred: " ++ "[Errno 13] Permission denied: 'locked.yaml'")
    ∈ log_stream (run E (mkArgs "locked.yaml" "alice.yaml" CRITICAL)).2.
Proof.
  assert (Hp : load_raises E "locked.yaml" PermissionError
                 "[Errno 13] Permission denied: 'locked.yaml'") by (by vm_compute).
  split; [exact Hp|].
  exact (load_failure_critical_record E (mkArgs "locked.yaml" "alice.yaml" CRITICAL)
           _ _ (or_introl Hp)).
Defined.

Lemma schema_exit_silent_at_critical_witness :
  loads E "list.yaml" (VList [VStr "a"]) ∧
  loads E "alice.yaml" Demo.alice ∧
  schema_in E (VList [VStr "a"]) = Ret false ∧
  (run E (mkArgs "list.yaml" "alice.yaml" CRITICAL)).1 = 1%Z ∧
  stdout (run E (mkArgs "list.yaml" "alice.yaml" CRITICAL)).2 = [] ∧
  log_stream (run E (mkArgs "list.yaml" "alice.yaml" CRITICAL)).2 = [].
Proof.
  assert (Hp : loads E "list.yaml" (VList [VStr "a"])) by (by vm_compute).
  assert (Hd : loads E "alice.yaml" Demo.alice) by (by vm_compute).
  assert (Hin : schema_in E (VList [VStr "a"]) = Ret false) by (by vm_compute).
  do 3 (split; [assumption|]).
  exact (schema_exit_silent_at_critical E (mkArgs "list.yaml" "alice.yaml" CRITICAL)
           _ _ Hp Hd Hin eq_refl).
Defined.

Lemma only_the_schema_key_matters_witness :
  loads E "policy.yaml" (VDict {[ "schema" := Demo.schema_A ]}) ∧
  loads E "policy2.yaml"
    (VDict {[ "schema" := Demo.schema_A; "version" := VInt 2 ]}) ∧
  ({[ "schema" := Demo.schema_A ]} : gmap string value) !! "schema" =
    ({[ "schema" := Demo.schema_A; "version" := VInt 2 ]} : gmap string value)
      !! "schema" ∧
  verdict (run E (mkArgs "policy.yaml" "age.yaml" INFO)) =
    verdict (run E (mkArgs "policy2.yaml" "age.yaml" DEBUG)).
Proof.
  assert (Hp1 : loads E "policy.yaml" (VDict {[ "schema" := Demo.schema_A ]}))
    by (by vm_compute).
  assert (Hp2 : loads E "policy2.yaml"
                  (VDict {[ "schema" := Demo.schema_A; "version" := VInt 2 ]}))
    by (by vm_compute).
  assert (Hs : ({[ "schema" := Demo.schema_A ]} : gmap string value) !! "schema" =
               ({[ "schema" := Demo.schema_A; "version" := VInt 2 ]}
                  : gmap string value) !! "schema") by (by vm_compute).
  do 3 (split; [assumption|]).
  exact (only_the_schema_key_matters E (mkArgs "policy.yaml" "age.yaml" INFO)
           (mkArgs "policy2.yaml" "age.yaml" DEBUG) _ _ Hp1 Hp2 Hs eq_refl).
Defined.

Lemma verdict_depends_on_loaded_values_witness :
  loads E "policy.yaml" Demo.policy_A ∧
  loads E "alice.yaml" Demo.alice ∧
  loads E "copy.yml" Demo.alice ∧
  verdict (run E (mkArgs "policy.yaml" "alice.yaml" INFO)) =
    verdict (run E (mkArgs "policy.yaml" "copy.yml" WARNING)).
Proof.
  assert (Hp : loads E "policy.yaml" Demo.policy_A) by (by vm_compute).
  assert (Hd1 : loads E "alice.yaml" Demo.alice) by (by vm_compute).
  assert (Hd2 : loads E "copy.yml" Demo.alice) by (by vm_compute).
  do 3 (split; [assumption|]).
  exact (verdict_depends_on_loaded_values E (mkArgs "policy.yaml" "alice.yaml" INFO)
           (mkArgs "policy.yaml" "copy.yml" WARNING) _ _ Hp Hp Hd1 Hd2).
Defined.

End MoreScenarios.
